(** * landez/reader.py: tile sources

    A shallow embedding of three of the four tile readers of
    [landez/reader.py] (the MBTiles archive reader, the remote tile
    downloader and the WMS requester; the Mapnik renderer is not
    modelled) together with the properties of the design document that
    concern them.

    Conventions of the embedding:
    - Python integers are [Z]; Python 2 byte strings holding binary data
      are [bytes], text is [string]; a dict is a [gmap].
    - A raised exception is the [Raise] case of [result]; code that also
      writes the output file or talks to the network runs in the monad [M],
      which threads a [world] and keeps the world reached when the
      exception was raised.
    - Modules of the Python standard library and the sibling modules
      [proj] and [landez/__init__] are not part of [reader.py]; what the
      code calls from them is a Section variable. *)

From Stdlib Require Import ZArith List String Ascii Lia Permutation Sorted.
From Stdlib Require Strings.Byte.
From stdpp Require Import base option list gmap strings sorting pretty.

Local Open Scope Z_scope.
Set Warnings "-register-all".

(** ** Exceptions and results *)

(** The exception classes the module defines or lets escape. The messages
    of [ExtractionError] and [InvalidFormatError] are not modelled. The two
    raise sites of [DownloadError] differ: the one for a failed
    [str.format] carries the unknown keyword in its message, the one after
    the retry loop raises the bare class. [HTTPException] is the class of
    [httplib] (a [BadStatusLine], say): a failed transfer that is not an
    [IOError]. *)
Inductive exn : Type :=
  | ExtractionError
  | InvalidFormatError
  | DownloadError (unknown_keyword : option string)
  | IOError
  | HTTPException
  | AssertionError
  | KeyError (key : string)
  | IndexError
  | TypeError
  | ValueError
  | ZeroDivisionError
  | zlib_error.

Inductive result (A : Type) : Type :=
  | Ok (a : A)
  | Raise (e : exn).
Arguments Ok {A} a.
Arguments Raise {A} e.

Definition rbind {A B} (r : result A) (k : A -> result B) : result B :=
  match r with
  | Ok a => k a
  | Raise e => Raise e
  end.

Definition bytes := list Byte.byte.

#[global] Instance byte_eq_dec : EqDecision Byte.byte :=
  Strings.Byte.byte_eq_dec.

(** The part of the outside world a call of [tile] can change: the file
    at the [output] path ([None] while it does not exist) and the number
    of calls made to [urllib] so far ([requests] counts the calls of
    [retrieve] and [urlopen], not what a call does on the wire). *)
Record world : Type := World {
  file : option bytes;
  requests : nat
}.

Definition M (A : Type) : Type := world -> result A * world.

Definition ret {A} (a : A) : M A := fun w => (Ok a, w).
Definition raise {A} (e : exn) : M A := fun w => (Raise e, w).
Definition bind {A B} (m : M A) (k : A -> M B) : M B :=
  fun w => match m w with
           | (Ok a, w') => k a w'
           | (Raise e, w') => (Raise e, w')
           end.
Definition lift {A} (r : result A) : M A := fun w => (r, w).

(** [try: body except <handled>: handler] *)
Definition try_except {A} (body : M A) (handled : exn -> bool)
    (handler : exn -> M A) : M A :=
  fun w => match body w with
           | (Ok a, w') => (Ok a, w')
           | (Raise e, w') => if handled e then handler e w' else (Raise e, w')
           end.

Declare Scope py_scope.
Delimit Scope py_scope with py.
Notation "x <- m ;; k" := (bind m (fun x => k))
  (at level 100, m at next level, right associativity) : py_scope.
Notation "m ;;; k" := (bind m (fun _ => k))
  (at level 100, right associativity) : py_scope.
Notation "'let?' x := r 'in' k" := (rbind r (fun x => k))
  (at level 100, x pattern, r at next level, right associativity) : py_scope.
Local Open Scope py_scope.

(** ** Log messages

    Every message of the module is built with [fmt % args] before it is
    handed to [logger.debug], and its formats use [%s] only. Nothing the
    logger does is modelled; what is left of such a line is the
    [TypeError] that [%] raises when the tuple [args] does not hold one
    item per conversion (a right operand that is not a tuple counts as one
    item). *)
Fixpoint conversions (fmt : string) : nat :=
  match fmt with
  | String "%" (String "s" rest) => S (conversions rest)
  | String _ rest => conversions rest
  | EmptyString => O
  end.

Definition debug (fmt : string) (args : nat) : result unit :=
  if (conversions fmt =? args)%nat then Ok tt else Raise TypeError.

(** [open(output, 'wb')] creates or truncates the file. *)
Definition open_wb : M unit :=
  fun w => (Ok tt, World (Some []) (requests w)).

(** [out.write(data)] on the freshly opened file. *)
Definition write (data : bytes) : M unit :=
  fun w => (Ok tt, World (Some (default [] (file w) ++ data)) (requests w)).

(** ** JSON values

    What [json.loads] returns: [None], booleans, numbers, strings, lists
    and dicts with string keys. Floats are not told apart from integers. *)
Inductive json : Type :=
  | JNull
  | JBool (b : bool)
  | JNum (n : Z)
  | JStr (s : string)
  | JArr (items : list json)
  | JObj (members : gmap string json).

(** [d[k] = v]: only a dict accepts a string key; a list, a string, a
    number or [None] raises [TypeError]. *)
Definition setitem (d : json) (k : string) (v : json) : result json :=
  match d with
  | JObj m => Ok (JObj (<[k := v]> m))
  | _ => Raise TypeError
  end.

(** ** Reader *)

Section Reader.
(** [DEFAULT_TILE_SIZE] of [landez/__init__.py]. *)
Variable DEFAULT_TILE_SIZE : Z.

(** [Reader.__init__]: [if not tilesize] holds for [None] and for [0]. *)
Definition Reader_init (tilesize : option Z) : Z :=
  match tilesize with
  | None => DEFAULT_TILE_SIZE
  | Some t => if t =? 0 then DEFAULT_TILE_SIZE else t
  end.
End Reader.

(** ** MBTilesReader *)

Module MBTilesReader.

(** Rows of the three tables the reader queries. *)
Record tiles_row : Type := TilesRow {
  zoom_level : Z;
  tile_column : Z;
  tile_row : Z;
  tile_data : bytes
}.

Record grids_row : Type := GridsRow {
  g_zoom_level : Z;
  g_tile_column : Z;
  g_tile_row : Z;
  grid_blob : bytes
}.

Record grid_data_row : Type := GridDataRow {
  d_zoom_level : Z;
  d_tile_column : Z;
  d_tile_row : Z;
  key_name : string;
  key_json : string
}.

(** The SQLite file behind [filename]. A table is the list of its rows
    in the order a scan returns them; [None] stands for a table (or a
    file) on which [execute] raises [OperationalError] or
    [DatabaseError]. *)
Record mbtiles : Type := MBTiles {
  tiles : option (list tiles_row);
  grids : option (list grids_row);
  grid_data : option (list grid_data_row)
}.

(** An integer SQLite can bind or store: a signed 64-bit value. *)
Definition sqlite_int (n : Z) : Prop := - 2 ^ 63 <= n < 2 ^ 63.

(** [_query]: the lazily opened connection (and the message logged when
    it is opened) is not modelled; a failing [execute] is turned into
    [InvalidFormatError]. [table] and [where_] stand for the SQL text.
    The definition follows the code for a file that [sqlite3.connect]
    opens and for query parameters that are [sqlite_int]: the error of a
    failing [connect], and the [OverflowError] of [execute] for a larger
    parameter, escape from the code and are not modelled. *)
Definition _query {A} (table : option (list A)) (where_ : A -> bool)
    : result (list A) :=
  let? _ := debug "Execute query '%s' %s" 2 in
  match table with
  | None => Raise InvalidFormatError
  | Some rows => Ok (filter (fun r => where_ r = true) rows)
  end.

(** [rows.fetchone()] on a fresh cursor. *)
Definition fetchone {A} (rows : list A) : option A := head rows.

(** [(2**int(z) - 1) - int(y)]; for [z < 0] Python computes a float, so
    the definition follows the code for [0 <= z] only. *)
Definition y_mercator (z y : Z) : Z := (2 ^ z - 1) - y.

Definition at_tile (z x y : Z) (r : tiles_row) : bool :=
  (zoom_level r =? z) && (tile_column r =? x) && (tile_row r =? y).

(** The statements of [tile] below its first line. *)
Definition extract (db : mbtiles) (z x y : Z) : M unit :=
  let y_mercator := y_mercator z y in
  rows <- lift (_query (tiles db) (at_tile z x y_mercator)) ;;
  match fetchone rows with
  | None => raise ExtractionError
  | Some t => open_wb ;;; write (tile_data t)
  end.

(** The first line is [logger.debug(_("Extract tile %s") % (z, x, y))]:
    the right operand of [%] is the 3-tuple itself. *)
Definition tile (db : mbtiles) (z x y : Z) : M unit :=
  lift (debug "Extract tile %s" 3) ;;;
  extract db z x y.

Definition at_grid (z x y : Z) (r : grids_row) : bool :=
  (g_zoom_level r =? z) && (g_tile_column r =? x) && (g_tile_row r =? y).

Definition at_grid_data (z x y : Z) (r : grid_data_row) : bool :=
  (d_zoom_level r =? z) && (d_tile_column r =? x) && (d_tile_row r =? y).

Section Grid.
(** [zlib.decompress], [json.loads] and [json.dumps]. The first two
    raise on malformed input. *)
Variable decompress : bytes -> result string.
Variable loads : string -> result json.
Variable dumps : json -> string.

(** The [while grid_data:] loop: [data] is the dict bound to
    [grid_json['data']], [rows] what the cursor still holds. The
    right-hand side [json.loads(grid_data[1])] is evaluated before the
    item assignment. *)
Fixpoint join_data (rows : list grid_data_row) (data : gmap string json)
    : result (gmap string json) :=
  match rows with
  | [] => Ok data
  | grid_data :: rows' =>
      let? fragment := loads (key_json grid_data) in
      join_data rows' (<[key_name grid_data := fragment]> data)
  end.

(** Everything up to the [return]: the assembled [grid_json]. *)
Definition grid_json (db : mbtiles) (z x y : Z) : result json :=
  let y_mercator := y_mercator z y in
  let? rows := _query (grids db) (at_grid z x y_mercator) in
  match fetchone rows with
  | None => Raise ExtractionError
  | Some t =>
      let? text := decompress (grid_blob t) in
      let? grid_json := loads text in
      let? rows := _query (grid_data db) (at_grid_data z x y_mercator) in
      let? grid_json := setitem grid_json "data" (JObj ∅) in
      let? data := join_data rows ∅ in
      setitem grid_json "data" (JObj data)
  end.

(** The last of [rows] that carries the feature key [k], and its
    parsed fragment. *)
Definition last_with_key (k : string) (rows : list grid_data_row)
    : option grid_data_row :=
  List.find (fun r => bool_decide (key_name r = k)) (rev rows).

Definition fragment_of (rows : list grid_data_row) (k : string)
    : option json :=
  match last_with_key k rows with
  | Some r => match loads (key_json r) with
              | Ok j => Some j
              | Raise _ => None
              end
  | None => None
  end.

Definition parses (r : grid_data_row) : Prop :=
  exists j, loads (key_json r) = Ok j.

(** [if not callback] holds for [None] and for the empty string. *)
Definition callback_name (callback : option string) : string :=
  match callback with
  | None => "grid"
  | Some c => if decide (c = "") then "grid" else c
  end.

Definition grid (db : mbtiles) (z x y : Z) (callback : option string)
    : result string :=
  let callback := callback_name callback in
  let? grid_json := grid_json db z x y in
  Ok (callback +:+ "(" +:+ dumps grid_json +:+ ");").
End Grid.

(** [ORDER BY tile_column, tile_row] compares the pairs
    lexicographically. *)
Definition pair_le (a b : Z * Z) : Prop :=
  a.1 < b.1 \/ (a.1 = b.1 /\ a.2 <= b.2).

#[global] Instance pair_le_dec : RelDecision pair_le.
Proof. intros a b. unfold pair_le. apply _. Defined.

Definition at_zoom (zoom : Z) (r : tiles_row) : bool := zoom_level r =? zoom.

(** The result set of the query of [find_coverage]. *)
Definition select_columns_rows (rows : list tiles_row) : list (Z * Z) :=
  merge_sort pair_le (map (fun r => (tile_column r, tile_row r)) rows).

(** The [while t and t[0] - previous[0] <= 1] loop. [cursor] is [t]
    followed by the rows not fetched yet, and is empty once [fetchone]
    has returned [None]. The result is [previous] at loop exit. *)
Fixpoint adjacent (previous : Z * Z) (cursor : list (Z * Z)) : Z * Z :=
  match cursor with
  | [] => previous
  | t :: rest =>
      if t.1 - previous.1 <=? 1 then adjacent t rest else previous
  end.

Section Coverage.
(** [GoogleProjection(S, [zoom]).unproject_pixels(px, zoom)] of the
    sibling module [proj]: a pair of coordinates. *)
Variable coord : Type.
Variable unproject_pixels : Z -> Z * Z -> Z -> coord * coord.

(** [+] on two 2-tuples. *)
Definition tuple_add (p q : coord * coord) : coord * coord * coord * coord :=
  (p.1, p.2, q.1, q.2).

Definition find_coverage (tilesize : Z) (db : mbtiles) (zoom : Z)
    : result (coord * coord * coord * coord) :=
  let? rows := _query (tiles db) (at_zoom zoom) in
  let rows := select_columns_rows rows in
  match fetchone rows with
  | None => Raise TypeError   (* [xmin, ymin = None] *)
  | Some t =>
      let '(xmin, ymin) := t in
      let previous := adjacent t rows in
      let '(xmax, ymax) := previous in
      let S := tilesize in
      let bottomleft := (xmin * S, (ymax + 1) * S) in
      let topright := ((xmax + 1) * S, ymin * S) in
      Ok (tuple_add (unproject_pixels S bottomleft zoom)
                    (unproject_pixels S topright zoom))
  end.
End Coverage.

(** The run of step 2 of the design document, in its words: starting
    with the first pair, the next pair joins the run while its column
    differs from the column of the pair before it by at most 1. *)
Fixpoint column_run (pairs : list (Z * Z)) : list (Z * Z) :=
  match pairs with
  | [] => []
  | p :: rest =>
      p :: match rest with
           | [] => []
           | q :: _ =>
               if Z.abs (q.1 - p.1) <=? 1 then column_run rest else []
           end
  end.

(** A row of the [metadata] table. *)
Record metadata_row : Type := MetadataRow {
  m_name : string;
  m_value : string
}.

(** [dict(rows)] for a list of pairs: the pairs are stored in turn, a
    later one replacing an earlier one with the same key. *)
Definition dict (rows : list (string * string)) : gmap string string :=
  fold_left (fun d row => <[row.1 := row.2]> d) rows ∅.

(** [metadata]: the table is passed on its own; the query has no
    [WHERE] clause. *)
Definition metadata (table : option (list metadata_row))
    : result (gmap string string) :=
  let? rows := _query table (fun _ => true) in
  let rows := map (fun row => (m_name row, m_value row)) rows in
  Ok (dict rows).

(** The value of the last row of the table named [k]. *)
Definition last_value (k : string) (rows : list metadata_row)
    : option string :=
  m_value <$> List.find (fun row => bool_decide (m_name row = k)) (rev rows).

(** [SELECT DISTINCT(zoom_level) FROM tiles ORDER BY zoom_level] *)
Definition select_distinct_zoom_level (rows : list tiles_row) : list Z :=
  merge_sort Z.le (remove_dups (map zoom_level rows)).

(** [zoomlevels], for a [zoom_level] column that holds integers, as the
    type of [tiles_row] has it: [int(row[0])] leaves them as they are. *)
Definition zoomlevels (db : mbtiles) : result (list Z) :=
  let? rows := _query (tiles db) (fun _ => true) in
  let rows := select_distinct_zoom_level rows in
  Ok (map (fun row => row) rows).

(** A tile of [rows] at [zoom], column [c] and (stored) row [r]. *)
Definition stored (rows : list tiles_row) (zoom c r : Z) : Prop :=
  exists t, t ∈ rows /\ zoom_level t = zoom /\
            tile_column t = c /\ tile_row t = r.

End MBTilesReader.

(** ** TileDownloader *)

Module TileDownloader.

(** A URL template as [str.format] reads it: literal text and
    replacement fields. Only plain fields are modelled: [{name}] for a
    name that [is_identifier], and [{}], [{0}] for an index. A field with
    attribute or index access, a conversion or a format specification
    ([{self.tilesize}], [{z!r}], [{x:d}]) is outside the model. *)
Inductive piece : Type :=
  | Text (s : string)
  | Field (name : string).

Definition is_digit (c : ascii) : bool :=
  let n := nat_of_ascii c in (48 <=? n)%nat && (n <=? 57)%nat.

Definition is_letter (c : ascii) : bool :=
  let n := nat_of_ascii c in
  ((65 <=? n)%nat && (n <=? 90)%nat) || ((97 <=? n)%nat && (n <=? 122)%nat)
  || (n =? 95)%nat.

Fixpoint is_word (name : string) : bool :=
  match name with
  | EmptyString => true
  | String c rest => (is_letter c || is_digit c) && is_word rest
  end.

(** A plain keyword: letters, digits and underscores, not starting with
    a digit. *)
Definition is_identifier (name : string) : bool :=
  match name with
  | EmptyString => false
  | String c rest => is_letter c && is_word rest
  end.

(** [{}] and [{0}] refer to positional arguments, any other name to a
    keyword argument. An index of more digits than [sys.maxsize] has
    makes [str.format] raise [ValueError] instead; the definition follows
    the code for indexes of at most nine digits. *)
Fixpoint is_positional (name : string) : bool :=
  match name with
  | EmptyString => true
  | String c rest => is_digit c && is_positional rest
  end.

(** [str.format] called with keyword arguments [kwargs] only, on a
    template of plain fields: no positional argument is passed, so a
    positional field raises [IndexError] and an unknown keyword
    [KeyError]; fields are replaced from left to right. [kwargs] maps a
    name to the [str()] of its value. *)
Fixpoint format (template : list piece) (kwargs : gmap string string)
    : result string :=
  match template with
  | [] => Ok ""
  | Text s :: template' =>
      let? tail := format template' kwargs in
      Ok (s +:+ tail)
  | Field name :: template' =>
      if is_positional name then Raise IndexError
      else match kwargs !! name with
           | None => Raise (KeyError name)
           | Some v =>
               let? tail := format template' kwargs in
               Ok (v +:+ tail)
           end
  end.

Record t : Type := New {
  tiles_url : list piece;
  tiles_subdomains : list string;
  tilesize : Z
}.

(** What [image.retrieve(url, output)] does on one call: it stores the
    whole body in [output], or it raises; [written] is what it left in
    [output] when it raised after opening the file ([None] when it
    raised before, as on a refused connection). *)
Inductive retrieved : Type :=
  | Retrieved (body : bytes)
  | Failed (e : exn) (written : option bytes).

Definition is_IOError (e : exn) : bool :=
  match e with IOError => true | _ => false end.

(** The names [locals()] binds at the call of [format]. *)
Definition local_names : list string :=
  ["self"; "z"; "x"; "y"; "output"; "size"; "s"].

Section Tile.
(** [DOWNLOAD_RETRIES] of [landez/__init__.py]. *)
Variable DOWNLOAD_RETRIES : Z.
(** [str(self)]. *)
Variable self_str : string.
(** The remote side: the outcome of the [n]-th request, made for
    [url]. *)
Variable backend : string -> nat -> retrieved.

Definition retrieve (url : string) : M unit :=
  fun w =>
    let n := requests w in
    match backend url n with
    | Retrieved body => (Ok tt, World (Some body) (S n))
    | Failed e written =>
        (Raise e, World (from_option Some (file w) written) (S n))
    end.

(** The [n]-th request, made for [url], fails with [IOError]. *)
Definition fails (url : string) (n : nat) : Prop :=
  exists written, backend url n = Failed IOError written.

(** [locals()] at the call of [format]. *)
Definition locals (z x y : Z) (output : string) (size : Z) (s : string)
    : gmap string string :=
  list_to_map [("self", self_str); ("z", pretty z); ("x", pretty x);
               ("y", pretty y); ("output", output);
               ("size", pretty size); ("s", s)].

(** [self.tiles_subdomains[(x + y) % len(self.tiles_subdomains)]] *)
Definition subdomain (subdomains : list string) (x y : Z)
    : result string :=
  let len := Z.of_nat (length subdomains) in
  if len =? 0 then Raise ZeroDivisionError
  else match subdomains !! Z.to_nat ((x + y) mod len) with
       | Some s => Ok s
       | None => Raise IndexError
       end.

(** The [while r > 0] loop; [r] counts down from
    [max DOWNLOAD_RETRIES 0]. *)
Fixpoint attempts (r : nat) (url : string) : M unit :=
  match r with
  | O => raise (DownloadError None)
  | S r' =>
      try_except (retrieve url) is_IOError
        (fun _ =>
           lift (debug "Download error, retry (%s left). (%s)" 2) ;;;
           attempts r' url)
  end.

(** The first line is [logger.debug(_("Download tile %s") % ((z, x, y),))]:
    a 1-tuple that holds the coordinate. *)
Definition tile (self : t) (z x y : Z) (output : string) : M unit :=
  lift (debug "Download tile %s" 1) ;;;
  let size := tilesize self in
  s <- lift (subdomain (tiles_subdomains self) x y) ;;
  url <- lift (match format (tiles_url self) (locals z x y output size s) with
               | Raise (KeyError e) => Raise (DownloadError (Some e))
               | r => r
               end) ;;
  let r := DOWNLOAD_RETRIES in
  attempts (Z.to_nat r) url.
End Tile.

End TileDownloader.

(** ** WMSReader *)

Module WMSReader.

(** Values of the request parameters. *)
Inductive pyval : Type :=
  | VStr (s : string)
  | VBool (b : bool)
  | VInt (n : Z).

Record t : Type := New {
  url : string;
  wmsParams : gmap string pyval;
  tilesize : Z;
  basename : string
}.

(** [sep.join(items)] *)
Definition join (sep : string) (items : list string) : string :=
  String.concat sep items.

(** [d[key]] *)
Definition getitem (d : gmap string pyval) (key : string) : result pyval :=
  match d !! key with
  | Some v => Ok v
  | None => Raise (KeyError key)
  end.

Section Init.
Variable DEFAULT_TILE_SIZE : Z.
(** [pkg_resources.parse_version] and the order of its results. *)
Variable version : Type.
Variable parse_version : pyval -> result version.
Variable version_ge : version -> version -> bool.
(** [GoogleProjection.NAME] *)
Variable NAME : string.

Definition defaults (layers : list string) (tilesize : Z)
    : gmap string pyval :=
  list_to_map [("service", VStr "WMS"); ("request", VStr "GetMap");
               ("version", VStr "1.1.1"); ("styles", VStr "");
               ("format", VStr "image/jpeg"); ("transparent", VBool false);
               ("layers", VStr (join "," layers));
               ("width", VInt tilesize); ("height", VInt tilesize)].

(** The version in force, in the words of the design document: the
    default unless the caller overrides it. *)
Definition effective_version (kwargs : gmap string pyval) : pyval :=
  default (VStr "1.1.1") (kwargs !! "version").

Definition __init__ (url : string) (layers : list string)
    (tilesize : option Z) (kwargs : gmap string pyval) : result t :=
  let tilesize := Reader_init DEFAULT_TILE_SIZE tilesize in
  let wmsParams := defaults layers tilesize in
  let wmsParams := kwargs ∪ wmsParams in
  let projectionKey := "srs" in
  let? v := getitem wmsParams "version" in
  let? v := parse_version v in
  let? v13 := parse_version (VStr "1.3") in
  let projectionKey := if version_ge v v13 then "crs" else projectionKey in
  let wmsParams := <[projectionKey := VStr NAME]> wmsParams in
  Ok {| url := url; wmsParams := wmsParams; tilesize := tilesize;
        basename := join "-" layers |}.
End Init.

(** What [urllib.urlopen(url)] gives: it raises, or it returns a
    response with a [Content-Type] header (possibly absent) whose
    [read()] returns the body or raises. *)
Inductive response : Type :=
  | Refused (e : exn)
  | Opened (typeheader : option string) (body : result bytes).

(** [header == self.wmsParams['format']] *)
Definition header_eq (header : option string) (format : pyval) : bool :=
  match header, format with
  | Some h, VStr f => bool_decide (h = f)
  | _, _ => false
  end.

Definition handled (e : exn) : bool :=
  match e with AssertionError | IOError => true | _ => false end.

Section Tile.
(** [','.join(map(str, proj.project(bbox[:2]) + proj.project(bbox[2:])))]
    for the bounding box of the tile, and [urllib.urlencode]. *)
Variable bbox_string : Z -> Z -> Z -> Z -> string.
Variable urlencode : gmap string pyval -> string.
(** The remote side: the outcome of the [n]-th call of [urlopen], made
    for [url] (redirects that the call follows are part of it). *)
Variable backend : string -> nat -> response.

Definition urlopen (url : string) : M (option string * result bytes) :=
  fun w =>
    let n := requests w in
    match backend url n with
    | Refused e => (Raise e, World (file w) (S n))
    | Opened typeheader body => (Ok (typeheader, body), World (file w) (S n))
    end.

Definition assert (b : bool) : M unit :=
  if b then ret tt else raise AssertionError.

Definition tile (self : t) (z x y : Z) : M unit :=
  lift (debug "Request WMS tile %s" 1) ;;;
  let bbox := bbox_string (tilesize self) z x y in
  let encodedparams := urlencode (wmsParams self) in
  let url := url self +:+ "?" +:+ encodedparams in
  let url := url +:+ "&bbox=" +:+ bbox in
  try_except
    (lift (debug "Download '%s'" 1) ;;;
     f <- urlopen url ;;
     let header := f.1 in
     fmt <- lift (getitem (wmsParams self) "format") ;;
     assert (header_eq header fmt) ;;;
     open_wb ;;;
     body <- lift f.2 ;;
     write body)
    handled
    (fun _ => raise ExtractionError).
End Tile.

End WMSReader.

(** * Sample inputs *)

Module Samples.
Import MBTilesReader.

Definition w0 : world := World None 0.

Definition png1 : bytes := [Byte.x89; Byte.x50; Byte.x01].
Definition png2 : bytes := [Byte.x89; Byte.x50; Byte.x02].

(** Zoom 1 with the stored tiles (0,0), (1,0) and (1,1), in no
    particular order. *)
Definition tiles_zoom1 : list tiles_row :=
  [TilesRow 1 1 1 png2; TilesRow 1 0 0 png1; TilesRow 1 1 0 png1].

(** [zlib.compress("{}")] and [zlib.compress("[]")]. *)
Definition blob : bytes :=
  [Byte.x78; Byte.x9c; Byte.xab; Byte.xae; Byte.x05; Byte.x00; Byte.x01;
   Byte.x75; Byte.x00; Byte.xf9].

Definition blob_list : bytes :=
  [Byte.x78; Byte.x9c; Byte.x8b; Byte.x8e; Byte.x05; Byte.x00; Byte.x01;
   Byte.x15; Byte.x00; Byte.xb9].

(** Two fragments under one feature key. *)
Definition same_key_rows : list grid_data_row :=
  [GridDataRow 0 0 0 "a" "1"; GridDataRow 0 0 0 "a" "2"].

Definition two_key_rows : list grid_data_row :=
  [GridDataRow 0 0 0 "a" "1"; GridDataRow 0 0 0 "b" "2"].

Definition db1 : mbtiles :=
  MBTiles (Some tiles_zoom1) (Some [GridsRow 0 0 0 blob]) (Some two_key_rows).

Definition same_key_db : mbtiles :=
  MBTiles (Some []) (Some [GridsRow 0 0 0 blob]) (Some same_key_rows).

(** Fragments without a header record. *)
Definition headless_db : mbtiles :=
  MBTiles (Some []) (Some []) (Some two_key_rows).

(** Stand-ins for [zlib.decompress] and [json.loads] that agree with
    them on the texts used here. *)
Definition decompress (b : bytes) : result string :=
  if decide (b = blob) then Ok "{}"
  else if decide (b = blob_list) then Ok "[]"
  else Raise zlib_error.

Definition loads (s : string) : result json :=
  if decide (s = "{}") then Ok (JObj ∅)
  else if decide (s = "[]") then Ok (JArr [])
  else if decide (s = "1") then Ok (JNum 1)
  else if decide (s = "2") then Ok (JNum 2)
  else Raise ValueError.

Definition dumps (j : json) : string := "...".

(** A projection stand-in that returns the pixel corner unchanged. *)
Definition unproject_pixels (S : Z) (px : Z * Z) (zoom : Z) : Z * Z := px.

Import TileDownloader.

Definition template_zxy : list piece :=
  [Text "http://"; Field "s"; Text ".tile.test/"; Field "z"; Text "/";
   Field "x"; Text "/"; Field "y"; Text ".png"].

Definition template_output : list piece :=
  [Text "http://"; Field "s"; Text ".tile.test/"; Field "output"].

Definition template_foo : list piece :=
  [Text "http://"; Field "s"; Text ".tile.test/"; Field "foo"].

Definition downloader (template : list piece) : TileDownloader.t :=
  TileDownloader.New template ["a"; "b"] 256.

Definition self_str : string := "<landez.reader.TileDownloader object>".

(** A backend whose first [k] requests fail before anything is written
    and whose later requests succeed. *)
Definition flaky (k : nat) (url : string) (n : nat) : retrieved :=
  if (n <? k)%nat then Failed IOError None else Retrieved png1.

(** A backend whose first [k] requests are answered with a broken
    status line ([httplib.BadStatusLine]) and whose later requests
    succeed. *)
Definition bad_status (k : nat) (url : string) (n : nat) : retrieved :=
  if (n <? k)%nat then Failed HTTPException None else Retrieved png1.

(** A backend that always breaks off after the first byte has reached
    the output file. *)
Definition truncating (url : string) (n : nat) : retrieved :=
  Failed IOError (Some [Byte.x89]).

Import WMSReader.

(** A stand-in for [parse_version] and its order that agrees with
    [pkg_resources] on the three versions it knows. *)
Definition parse_version (v : pyval) : result Z :=
  match v with
  | VStr s =>
      if decide (s = "1.1.1") then Ok 111
      else if decide (s = "1.3") then Ok 130
      else if decide (s = "1.3.0") then Ok 130
      else Raise ValueError
  | _ => Raise TypeError
  end.

Definition version_ge (a b : Z) : bool := b <=? a.

Definition NAME : string := "EPSG:3857".

(** Overrides that select version 1.3.0 and try to set [crs]. *)
Definition kwargs130 : gmap string pyval :=
  {["version" := VStr "1.3.0"; "crs" := VStr "EPSG:4326"]}.

Definition wms : WMSReader.t :=
  WMSReader.New "http://wms.test/" {["format" := VStr "image/jpeg"]} 256 "osm".

Definition bbox_string (S z x y : Z) : string := "0,0,1,1".
Definition urlencode (params : gmap string pyval) : string :=
  "format=image%2Fjpeg".

(** A server that answers with an XML error document. *)
Definition xml_backend (url : string) (n : nat) : response :=
  Opened (Some "application/vnd.ogc.se_xml") (Ok png2).

(** A [metadata] table that names [version] twice. *)
Definition metadata_rows : list MBTilesReader.metadata_row :=
  [MBTilesReader.MetadataRow "version" "1.0";
   MBTilesReader.MetadataRow "name" "osm";
   MBTilesReader.MetadataRow "version" "1.1"].

(** Tiles at the zooms 3, 1 and 3 again; at zoom 3 the columns 2, 3
    and 5 are populated. *)
Definition tiles_zooms : list MBTilesReader.tiles_row :=
  [MBTilesReader.TilesRow 3 5 0 png1; MBTilesReader.TilesRow 1 0 0 png1;
   MBTilesReader.TilesRow 3 2 4 png2; MBTilesReader.TilesRow 3 3 1 png1;
   MBTilesReader.TilesRow 3 2 6 png1].

Definition db_zooms : MBTilesReader.mbtiles :=
  MBTilesReader.MBTiles (Some tiles_zooms) (Some [MBTilesReader.GridsRow 0 0 0 blob])
    (Some [MBTilesReader.GridDataRow 0 0 0 "a" "1";
           MBTilesReader.GridDataRow 0 0 0 "b" "{";
           MBTilesReader.GridDataRow 0 0 0 "c" "2"]).

(** A [grids] record that holds a JSON list instead of an object. *)
Definition db_list : MBTilesReader.mbtiles :=
  MBTilesReader.MBTiles (Some []) (Some [MBTilesReader.GridsRow 0 0 0 blob_list])
    (Some two_key_rows).

Definition template_positional : list TileDownloader.piece :=
  [TileDownloader.Text "http://"; TileDownloader.Field "s";
   TileDownloader.Text ".tile.test/"; TileDownloader.Field "0";
   TileDownloader.Text "/"; TileDownloader.Field "foo"].

(** A backend whose requests fail with an error other than [IOError]. *)
Definition broken (url : string) (n : nat) : TileDownloader.retrieved :=
  TileDownloader.Failed ValueError None.

(** A server that answers with a JPEG image. *)
Definition jpeg_backend (url : string) (n : nat) : response :=
  Opened (Some "image/jpeg") (Ok png1).

End Samples.

(** * Properties *)

(** ** Row conversion and tile lookup *)

Module MBTilesFacts.
Import MBTilesReader.

Lemma fetchone_query {A} (where_ : A -> bool) (rows : list A) :
  fetchone (filter (fun r => where_ r = true) rows) = List.find where_ rows.
Proof.
  unfold fetchone.
  induction rows as [|r rows IH]; simpl; [reflexivity|].
  rewrite filter_cons. destruct (where_ r) eqn:E.
  - rewrite decide_True by done. reflexivity.
  - rewrite decide_False by (simpl; congruence). exact IH.
Qed.

Lemma y_mercator_range z y :
  0 <= z -> 0 <= y < 2 ^ z -> 0 <= y_mercator z y < 2 ^ z.
Proof. unfold y_mercator. lia. Qed.

(** C1. For every zoom [0 <= z] and row [0 <= y < 2^z], converting the
    row twice with [stored_row = (2^z - 1) - y], the conversion of
    [tile] and [grid], gives [y] back. *)
Theorem y_mercator_involutive z y :
  0 <= z -> 0 <= y < 2 ^ z ->
  y_mercator z (y_mercator z y) = y.
Proof. intros _ _. unfold y_mercator. ring. Qed.

Lemma y_mercator_involutive_witness :
  (0 <= 3 /\ 0 <= 5 < 2 ^ 3) /\ y_mercator 3 (y_mercator 3 5) = 5.
Proof.
  split; [lia|]. apply (y_mercator_involutive 3 5); lia.
Defined.

(** What the statements below the first line of [tile] do on a readable
    [tiles] table, as one equation. *)
Lemma extract_eq db rows z x y w :
  tiles db = Some rows ->
  extract db z x y w =
    match List.find (at_tile z x (y_mercator z y)) rows with
    | None => (Raise ExtractionError, w)
    | Some t => (Ok tt, World (Some (tile_data t)) (requests w))
    end.
Proof.
  intros Hdb. unfold extract, bind, lift, _query. rewrite Hdb. simpl.
  rewrite fetchone_query.
  destruct (List.find _ rows) as [t|]; reflexivity.
Qed.

(** Below the log line [tile] does what the design document describes:
    on a readable archive and for [0 <= z] it looks up the key
    [(z, x, (2^z - 1) - y)], raises [ExtractionError] without such a row
    and otherwise leaves exactly the blob of the (first) row found in the
    output file, so that the tile stored at [(z, x, stored_row)] is what
    a request for [y = (2^z - 1) - stored_row] writes. *)
Lemma extract_lookup db rows z x w :
  0 <= z ->
  tiles db = Some rows ->
  (forall y,
     extract db z x y w =
       match List.find (at_tile z x ((2 ^ z - 1) - y)) rows with
       | None => (Raise ExtractionError, w)
       | Some t => (Ok tt, World (Some (tile_data t)) (requests w))
       end) /\
  (forall stored_row t,
     List.find (at_tile z x stored_row) rows = Some t ->
     extract db z x ((2 ^ z - 1) - stored_row) w =
       (Ok tt, World (Some (tile_data t)) (requests w))).
Proof.
  intros _ Hdb. split.
  - intros y. apply (extract_eq _ _ _ _ _ _ Hdb).
  - intros stored_row t Hfind.
    rewrite (extract_eq _ _ _ _ _ _ Hdb). unfold y_mercator.
    replace (2 ^ z - 1 - (2 ^ z - 1 - stored_row)) with stored_row by ring.
    rewrite Hfind. reflexivity.
Qed.

(** C2, as the code has it: [tile] never reaches the lookup. Its first
    line formats a message with one [%s] from the 3-tuple [(z, x, y)],
    which raises [TypeError]; nothing is looked up and nothing is
    written, whether or not the tile is stored. *)
Theorem tile_raises_TypeError db z x y w :
  tile db z x y w = (Raise TypeError, w).
Proof. reflexivity. Qed.

End MBTilesFacts.

(** ** Grids *)

Module GridFacts.
Import MBTilesReader.

Section Grid.
Variable decompress : bytes -> result string.
Variable loads : string -> result json.
Variable dumps : json -> string.

Lemma grid_json_eq db grows z x y :
  grids db = Some grows ->
  grid_json decompress loads db z x y =
    match List.find (at_grid z x (y_mercator z y)) grows with
    | None => Raise ExtractionError
    | Some t =>
        let? text := decompress (grid_blob t) in
        let? grid_json := loads text in
        let? rows := _query (grid_data db) (at_grid_data z x (y_mercator z y)) in
        let? grid_json := setitem grid_json "data" (JObj ∅) in
        let? data := join_data loads rows ∅ in
        setitem grid_json "data" (JObj data)
    end.
Proof.
  intros Hdb. unfold grid_json, _query at 1. rewrite Hdb. simpl.
  rewrite MBTilesFacts.fetchone_query. reflexivity.
Qed.

Lemma find_app {A} (f : A -> bool) (l1 l2 : list A) :
  List.find f (l1 ++ l2) =
    match List.find f l1 with
    | Some a => Some a
    | None => List.find f l2
    end.
Proof.
  induction l1 as [|a l1 IH]; simpl; [reflexivity|].
  destruct (f a); [reflexivity | exact IH].
Qed.

Lemma last_with_key_cons k r rows :
  last_with_key k (r :: rows) =
    match last_with_key k rows with
    | Some r' => Some r'
    | None => if bool_decide (key_name r = k) then Some r else None
    end.
Proof. unfold last_with_key. simpl. rewrite find_app. reflexivity. Qed.

Lemma last_with_key_Some k rows r :
  last_with_key k rows = Some r -> r ∈ rows /\ key_name r = k.
Proof.
  unfold last_with_key. intros H. apply List.find_some in H as [Hin Hk].
  apply bool_decide_eq_true in Hk. split; [|exact Hk].
  apply list_elem_of_In. apply in_rev. exact Hin.
Qed.

Lemma last_with_key_None k rows :
  last_with_key k rows = None -> forall r, r ∈ rows -> key_name r <> k.
Proof.
  unfold last_with_key. intros H r Hin Hk.
  apply list_elem_of_In, in_rev in Hin.
  pose proof (List.find_none _ _ H r Hin) as Hf. simpl in Hf.
  apply bool_decide_eq_false in Hf. contradiction.
Qed.

(** The loop stores, under every key, the fragment of the last row
    that carries it, and leaves the other keys of [data] alone. *)
Lemma join_data_lookup rows : forall data0,
  Forall (parses loads) rows ->
  exists data,
    join_data loads rows data0 = Ok data /\
    forall k, data !! k =
                match fragment_of loads rows k with
                | Some j => Some j
                | None => data0 !! k
                end.
Proof.
  induction rows as [|r rows IH]; intros data0 Hall.
  - exists data0. split; [reflexivity|]. intros k. reflexivity.
  - apply Forall_cons in Hall as [[j Hj] Hall].
    destruct (IH (<[key_name r := j]> data0) Hall) as (data & Hrun & Hget).
    exists data. split.
    + simpl. rewrite Hj. simpl. exact Hrun.
    + intros k. rewrite Hget. unfold fragment_of.
      rewrite last_with_key_cons.
      destruct (last_with_key k rows) as [r'|] eqn:Hlast.
      * destruct (last_with_key_Some _ _ _ Hlast) as [Hin _].
        rewrite Forall_forall in Hall.
        destruct (Hall r' Hin) as [j' Hj']. rewrite Hj'. reflexivity.
      * case_bool_decide as Hk.
        -- rewrite Hj. subst k. apply lookup_insert_eq.
        -- apply lookup_insert_ne. exact Hk.
Qed.

Lemma fragment_of_is_Some rows k :
  Forall (parses loads) rows ->
  is_Some (fragment_of loads rows k) <->
  exists r, r ∈ rows /\ key_name r = k.
Proof.
  intros Hall. unfold fragment_of. split.
  - destruct (last_with_key k rows) as [r|] eqn:Hlast.
    + intros _. exists r. eapply last_with_key_Some; eauto.
    + intros [? ?]; discriminate.
  - intros (r & Hin & Hk).
    destruct (last_with_key k rows) as [r'|] eqn:Hlast.
    + destruct (last_with_key_Some _ _ _ Hlast) as [Hin' _].
      rewrite Forall_forall in Hall.
      destruct (Hall r' Hin') as [j' Hj']. rewrite Hj'. eauto.
    + exfalso. exact (last_with_key_None _ _ Hlast r Hin Hk).
Qed.

Lemma join_data_dom rows (data : gmap string json) :
  Forall (parses loads) rows ->
  (forall k, data !! k = fragment_of loads rows k) ->
  dom data = (list_to_set (key_name <$> rows) : gset string).
Proof.
  intros Hall Hget. apply set_eq. intros k.
  rewrite elem_of_dom, Hget, (fragment_of_is_Some _ _ Hall).
  rewrite elem_of_list_to_set, list_elem_of_fmap.
  split; intros (r & H1 & H2); exists r; auto.
Qed.

Lemma last_with_key_NoDup rows r :
  NoDup (key_name <$> rows) -> r ∈ rows ->
  last_with_key (key_name r) rows = Some r.
Proof.
  induction rows as [|r0 rows IH]; intros Hnd Hin.
  - inversion Hin.
  - rewrite fmap_cons in Hnd. apply NoDup_cons in Hnd as [Hfresh Hnd].
    rewrite last_with_key_cons.
    apply elem_of_cons in Hin as [->|Hin].
    + destruct (last_with_key (key_name r0) rows) as [r'|] eqn:Hlast.
      * exfalso. apply Hfresh.
        destruct (last_with_key_Some _ _ _ Hlast) as [Hin' Hk'].
        rewrite <- Hk'. apply list_elem_of_fmap. eauto.
      * rewrite bool_decide_eq_true_2; reflexivity.
    + rewrite (IH Hnd Hin). reflexivity.
Qed.

(** The tests of the two [WHERE] clauses, spelled out. *)
Lemma at_grid_spec z x y r :
  at_grid z x y r = true <->
  g_zoom_level r = z /\ g_tile_column r = x /\ g_tile_row r = y.
Proof. unfold at_grid. rewrite !andb_true_iff, !Z.eqb_eq. tauto. Qed.

Lemma at_grid_data_spec z x y r :
  at_grid_data z x y r = true <->
  d_zoom_level r = z /\ d_tile_column r = x /\ d_tile_row r = y.
Proof. unfold at_grid_data. rewrite !andb_true_iff, !Z.eqb_eq. tauto. Qed.

Lemma grid_data_here z x y (drows : list grid_data_row) :
  filter (fun r => at_grid_data z x (y_mercator z y) r = true) drows
  = filter (fun r => d_zoom_level r = z /\ d_tile_column r = x /\
                     d_tile_row r = (2 ^ z - 1) - y) drows.
Proof. apply list_filter_iff. intros r. apply at_grid_data_spec. Qed.

Lemma grids_here z x y grows t :
  t ∈ grows ->
  g_zoom_level t = z /\ g_tile_column t = x /\ g_tile_row t = (2 ^ z - 1) - y ->
  (forall t', t' ∈ grows ->
     g_zoom_level t' = z /\ g_tile_column t' = x /\
     g_tile_row t' = (2 ^ z - 1) - y -> grid_blob t' = grid_blob t) ->
  exists t', List.find (at_grid z x (y_mercator z y)) grows = Some t' /\
             grid_blob t' = grid_blob t.
Proof.
  intros Hin Hat Hsame.
  destruct (List.find _ grows) as [t'|] eqn:Hfind.
  - exists t'. split; [reflexivity|].
    apply List.find_some in Hfind as [Hin' Hat'].
    apply Hsame; [apply list_elem_of_In; exact Hin'|].
    apply at_grid_spec. exact Hat'.
  - exfalso. apply list_elem_of_In in Hin.
    pose proof (List.find_none _ _ Hfind t Hin) as Hf.
    apply at_grid_spec in Hat. unfold y_mercator in Hf. congruence.
Qed.

(** What [grid] returns when everything parses: the header with its
    [data] member replaced by the map the loop builds. *)
Lemma grid_run db grows drows z x y callback t text header :
  grids db = Some grows ->
  List.find (at_grid z x (y_mercator z y)) grows = Some t ->
  decompress (grid_blob t) = Ok text ->
  loads text = Ok (JObj header) ->
  grid_data db = Some drows ->
  let here :=
    filter (fun r => at_grid_data z x (y_mercator z y) r = true) drows in
  Forall (parses loads) here ->
  exists data : gmap string json,
    grid decompress loads dumps db z x y callback =
      Ok (callback_name callback +:+ "(" +:+
          dumps (JObj (<["data" := JObj data]> header)) +:+ ");") /\
    (forall k, data !! k = fragment_of loads here k) /\
    dom data = (list_to_set (key_name <$> here) : gset string).
Proof.
  intros Hgrids Hfind Htext Hhdr Hdata here Hall.
  destruct (join_data_lookup here ∅ Hall) as (data & Hrun & Hget).
  assert (Hget' : forall k, data !! k = fragment_of loads here k).
  { intros k. rewrite Hget, lookup_empty.
    destruct (fragment_of loads here k); reflexivity. }
  exists data. split; [|split; [exact Hget'|]].
  - unfold grid. rewrite (grid_json_eq _ _ _ _ _ Hgrids), Hfind. simpl.
    rewrite Htext. simpl. rewrite Hhdr. simpl.
    unfold _query. rewrite Hdata. simpl. fold here. rewrite Hrun. simpl.
    rewrite insert_insert_eq. reflexivity.
  - exact (join_data_dom _ _ Hall Hget').
Qed.

(** C3. For a coordinate whose parameters SQLite can bind and whose
    [grids] record decompresses and parses to a JSON object, and for
    [grid_data] rows at the same converted coordinate that parse and
    carry pairwise distinct feature keys (one row per feature), [grid]
    returns [callback(json);], with [grid] for a callback that is [None]
    or empty, where the document is the header with its [data] member
    replaced by a map of exactly one entry per row, binding the key of
    the row to its parsed fragment, and nothing else. *)
Theorem grid_assembly db grows drows z x y callback t text header :
  0 <= z ->
  sqlite_int z -> sqlite_int x -> sqlite_int ((2 ^ z - 1) - y) ->
  grids db = Some grows ->
  t ∈ grows ->
  g_zoom_level t = z /\ g_tile_column t = x /\ g_tile_row t = (2 ^ z - 1) - y ->
  (forall t', t' ∈ grows ->
     g_zoom_level t' = z /\ g_tile_column t' = x /\
     g_tile_row t' = (2 ^ z - 1) - y -> grid_blob t' = grid_blob t) ->
  decompress (grid_blob t) = Ok text ->
  loads text = Ok (JObj header) ->
  grid_data db = Some drows ->
  let here :=
    filter (fun r => d_zoom_level r = z /\ d_tile_column r = x /\
                     d_tile_row r = (2 ^ z - 1) - y) drows in
  (forall r, r ∈ here -> exists j, loads (key_json r) = Ok j) ->
  NoDup (key_name <$> here) ->
  exists data : gmap string json,
    grid decompress loads dumps db z x y callback =
      Ok (match callback with
          | Some c => if decide (c = "") then "grid" else c
          | None => "grid"
          end +:+ "(" +:+
          dumps (JObj (<["data" := JObj data]> header)) +:+ ");") /\
    size data = length here /\
    (forall r, r ∈ here ->
       exists j, loads (key_json r) = Ok j /\ data !! key_name r = Some j) /\
    (forall k, is_Some (data !! k) -> exists r, r ∈ here /\ key_name r = k).
Proof.
  intros _ _ _ _ Hgrids Hin Hat Hsame Htext Hhdr Hdata here Hparse Hnd.
  destruct (grids_here z x y grows t Hin Hat Hsame) as (t' & Hfind & Hblob).
  rewrite <- Hblob in Htext. subst here.
  rewrite <- (grid_data_here z x y drows) in *.
  assert (Hall : Forall (parses loads)
            (filter (fun r => at_grid_data z x (y_mercator z y) r = true) drows)).
  { apply Forall_forall. exact Hparse. }
  destruct (grid_run db grows drows z x y callback t' text header
              Hgrids Hfind Htext Hhdr Hdata Hall) as (data & Hrun & Hget & Hdom).
  exists data. split; [exact Hrun|]. split; [|split].
  - rewrite <- size_dom, Hdom, size_list_to_set by exact Hnd.
    apply length_fmap.
  - intros r Hr. destruct (Hparse r Hr) as [j Hj]. exists j.
    split; [exact Hj|]. rewrite Hget. unfold fragment_of.
    rewrite (last_with_key_NoDup _ _ Hnd Hr), Hj. reflexivity.
  - intros k Hk. apply elem_of_dom in Hk. rewrite Hdom in Hk.
    apply elem_of_list_to_set, list_elem_of_fmap in Hk as (r & -> & Hr). eauto.
Qed.

(** C4. For a coordinate whose parameters SQLite can bind, on an
    archive whose [grids] table is readable and for [0 <= z], when no
    [grids] row sits at the converted coordinate, [grid] raises
    [ExtractionError], whatever the [grid_data] table holds at that
    coordinate. *)
Theorem grid_missing_header db grows z x y callback :
  0 <= z ->
  sqlite_int z -> sqlite_int x -> sqlite_int ((2 ^ z - 1) - y) ->
  grids db = Some grows ->
  (forall r, r ∈ grows ->
     ~ (g_zoom_level r = z /\ g_tile_column r = x /\
        g_tile_row r = (2 ^ z - 1) - y)) ->
  grid decompress loads dumps db z x y callback = Raise ExtractionError.
Proof.
  intros _ _ _ _ Hgrids Hnone.
  unfold grid. rewrite (grid_json_eq _ _ _ _ _ Hgrids).
  destruct (List.find _ grows) as [t|] eqn:Hfind; [|reflexivity].
  apply List.find_some in Hfind as [Hin Hat].
  apply list_elem_of_In in Hin. apply at_grid_spec in Hat.
  exfalso. exact (Hnone t Hin Hat).
Qed.

(** When several rows at the coordinate carry one feature key, the
    fragment of the last of them in scan order is the one [data] holds:
    [grid] fills a dict by item assignment. *)
Lemma last_with_key_last k pre r post :
  key_name r = k ->
  (forall r', r' ∈ post -> key_name r' <> k) ->
  last_with_key k (pre ++ r :: post) = Some r.
Proof.
  intros Hk Hpost. unfold last_with_key.
  rewrite rev_app_distr. simpl. rewrite <- app_assoc, find_app.
  destruct (List.find _ (rev post)) as [r'|] eqn:Hfind.
  - exfalso. apply List.find_some in Hfind as [Hin Hk'].
    apply bool_decide_eq_true in Hk'.
    apply (Hpost r'); [|exact Hk']. apply list_elem_of_In, in_rev. exact Hin.
  - simpl. rewrite bool_decide_eq_true_2 by exact Hk. reflexivity.
Qed.

(** X18. When the [grids] record found at the converted coordinate
    decompresses and parses to a JSON object and the [grid_data] rows at
    that coordinate parse, a feature key carried by several of these
    rows ends up bound to the fragment of the last of them in scan
    order. *)
Theorem grid_last_fragment_wins db grows drows z x y callback t text header
    pre r post j :
  0 <= z ->
  grids db = Some grows ->
  List.find (at_grid z x (y_mercator z y)) grows = Some t ->
  decompress (grid_blob t) = Ok text ->
  loads text = Ok (JObj header) ->
  grid_data db = Some drows ->
  filter (fun r => at_grid_data z x (y_mercator z y) r = true) drows
    = pre ++ r :: post ->
  (forall r', r' ∈ pre ++ r :: post -> exists j', loads (key_json r') = Ok j') ->
  (forall r', r' ∈ post -> key_name r' <> key_name r) ->
  loads (key_json r) = Ok j ->
  exists data : gmap string json,
    grid decompress loads dumps db z x y callback =
      Ok (callback_name callback +:+ "(" +:+
          dumps (JObj (<["data" := JObj data]> header)) +:+ ");") /\
    data !! key_name r = Some j.
Proof.
  intros _ Hgrids Hfind Htext Hhdr Hdata Hhere Hparse Hpost Hj.
  assert (Hall : Forall (parses loads)
            (filter (fun r => at_grid_data z x (y_mercator z y) r = true) drows)).
  { rewrite Hhere. apply Forall_forall. exact Hparse. }
  destruct (grid_run db grows drows z x y callback t text header
              Hgrids Hfind Htext Hhdr Hdata Hall) as (data & Hrun & Hget & _).
  exists data. split; [exact Hrun|].
  rewrite Hget, Hhere. unfold fragment_of.
  rewrite (last_with_key_last _ pre r post eq_refl Hpost), Hj. reflexivity.
Qed.
End Grid.

Lemma sqlite_int_0 : sqlite_int 0.
Proof. unfold sqlite_int. lia. Defined.

Lemma grid_assembly_witness :
  exists data : gmap string json,
    grid Samples.decompress Samples.loads Samples.dumps Samples.db1 0 0 0 None =
      Ok ("grid" +:+ "(" +:+
          Samples.dumps (JObj (<["data" := JObj data]> ∅)) +:+ ");") /\
    size data = 2%nat.
Proof.
  destruct (grid_assembly Samples.decompress Samples.loads Samples.dumps
              Samples.db1 [GridsRow 0 0 0 Samples.blob] Samples.two_key_rows
              0 0 0 None (GridsRow 0 0 0 Samples.blob) "{}" ∅
              ltac:(lia) sqlite_int_0 sqlite_int_0 sqlite_int_0 eq_refl)
    as (data & Hgrid & Hsize & _).
  - left.
  - repeat split.
  - intros t' Hin _. apply list_elem_of_singleton in Hin as ->. reflexivity.
  - reflexivity.
  - reflexivity.
  - reflexivity.
  - intros r Hin.
    repeat (apply elem_of_cons in Hin as [->|Hin]; [eexists; reflexivity|]).
    inversion Hin.
  - apply (bool_decide_unpack _). reflexivity.
  - exists data. split; [exact Hgrid | exact Hsize].
Defined.

Lemma grid_missing_header_witness :
  grid Samples.decompress Samples.loads Samples.dumps Samples.headless_db
       0 0 0 None = Raise ExtractionError.
Proof.
  apply (grid_missing_header _ _ _ Samples.headless_db [] 0 0 0 None);
    [lia | exact sqlite_int_0 | exact sqlite_int_0 | exact sqlite_int_0
    | reflexivity | ].
  intros r Hin. inversion Hin.
Defined.

Lemma grid_last_fragment_wins_witness :
  exists data : gmap string json,
    grid Samples.decompress Samples.loads Samples.dumps Samples.same_key_db
         0 0 0 None =
      Ok ("grid" +:+ "(" +:+
          Samples.dumps (JObj (<["data" := JObj data]> ∅)) +:+ ");") /\
    data !! "a" = Some (JNum 2).
Proof.
  apply (grid_last_fragment_wins Samples.decompress Samples.loads Samples.dumps
           Samples.same_key_db [GridsRow 0 0 0 Samples.blob]
           Samples.same_key_rows 0 0 0 None (GridsRow 0 0 0 Samples.blob)
           "{}" ∅ [GridDataRow 0 0 0 "a" "1"] (GridDataRow 0 0 0 "a" "2") []
           (JNum 2) ltac:(lia) eq_refl eq_refl eq_refl eq_refl eq_refl eq_refl).
  - intros r' Hin.
    repeat (apply elem_of_cons in Hin as [->|Hin]; [eexists; reflexivity|]).
    inversion Hin.
  - intros r' Hin. inversion Hin.
  - reflexivity.
Defined.
End GridFacts.

(** ** Coverage *)

Module CoverageFacts.
Import MBTilesReader.

#[local] Instance pair_le_total : Total pair_le.
Proof. intros [a b] [c d]. unfold pair_le. simpl. lia. Qed.

Lemma select_columns_rows_sorted rows : Sorted pair_le (select_columns_rows rows).
Proof. apply (Sorted_merge_sort pair_le). Qed.

Lemma select_columns_rows_perm rows :
  select_columns_rows rows ≡ₚ (fun r => (tile_column r, tile_row r)) <$> rows.
Proof. apply (merge_sort_Permutation pair_le). Qed.

Lemma column_run_cons p rest : exists run, column_run (p :: rest) = p :: run.
Proof. simpl. eauto. Qed.

(** On a sorted cursor the signed test of the loop is the test "differs
    by at most 1", and the loop stops on the last pair of the run. *)
Lemma adjacent_column_run rest : forall p,
  Sorted pair_le (p :: rest) ->
  last (column_run (p :: rest)) = Some (adjacent p rest).
Proof.
  induction rest as [|q rest IH]; intros p Hs; [reflexivity|].
  apply Sorted_inv in Hs as [Hs Hhd]. apply HdRel_inv in Hhd.
  assert (Hle : p.1 <= q.1) by (unfold pair_le in Hhd; lia).
  change (column_run (p :: q :: rest))
    with (p :: if Z.abs (q.1 - p.1) <=? 1 then column_run (q :: rest) else []).
  simpl adjacent. rewrite Z.abs_eq by lia.
  destruct (q.1 - p.1 <=? 1); [|reflexivity].
  destruct (column_run_cons q rest) as [run Hrun].
  rewrite <- (IH q Hs), Hrun. reflexivity.
Qed.

(** The run is cut by columns alone. *)
Lemma column_run_ignores_rows pairs :
  length (column_run pairs) =
  length (column_run ((fun p => (p.1, 0)) <$> pairs)).
Proof.
  induction pairs as [|p [|q rest] IH]; [reflexivity..|].
  change (column_run (p :: q :: rest))
    with (p :: if Z.abs (q.1 - p.1) <=? 1 then column_run (q :: rest) else []).
  rewrite !fmap_cons.
  change (column_run ((p.1, 0) :: (q.1, 0) :: ((fun p => (p.1, 0)) <$> rest)))
    with ((p.1, 0) :: if Z.abs (q.1 - p.1) <=? 1
                      then column_run ((q.1, 0) :: ((fun p => (p.1, 0)) <$> rest))
                      else []).
  destruct (Z.abs (q.1 - p.1) <=? 1); [|reflexivity].
  simpl length. f_equal. exact IH.
Qed.

Lemma filter_none {A} (P : A -> Prop) `{forall a, Decision (P a)} (l : list A) :
  (forall a, a ∈ l -> ~ P a) -> filter P l = [].
Proof.
  induction l as [|a l IH]; intros Hno; [reflexivity|].
  rewrite filter_cons, decide_False by (apply Hno; left).
  apply IH. intros b Hb. apply Hno. right. exact Hb.
Qed.

Section Coverage.
Variable coord : Type.
Variable unproject_pixels : Z -> Z * Z -> Z -> coord * coord.

(** C5. At a zoom that SQLite can bind and that holds a stored tile,
    [find_coverage] takes the (column, row) pairs of that zoom sorted by
    column then row, seeds [xmin, ymin] with the first pair, follows the
    run in which each next column differs from the one before by at most
    1 (a run cut by columns alone), takes [xmax, ymax] from the last pair
    of the run and returns the four coordinates of the conversions of
    [(xmin*S, (ymax+1)*S)] and [((xmax+1)*S, ymin*S)], in this order. *)
Theorem find_coverage_scan S db rows zoom :
  sqlite_int zoom ->
  tiles db = Some rows ->
  (exists r, r ∈ rows /\ zoom_level r = zoom) ->
  exists xmin ymin xmax ymax rest,
    let pairs := (xmin, ymin) :: rest in
    pairs ≡ₚ (fun r => (tile_column r, tile_row r)) <$>
               filter (fun r => zoom_level r = zoom) rows /\
    Sorted (fun a b : Z * Z => a.1 < b.1 \/ (a.1 = b.1 /\ a.2 <= b.2)) pairs /\
    last (column_run pairs) = Some (xmax, ymax) /\
    length (column_run pairs) =
      length (column_run ((fun p => (p.1, 0)) <$> pairs)) /\
    find_coverage coord unproject_pixels S db zoom =
      Ok (let bottomleft := unproject_pixels S (xmin * S, (ymax + 1) * S) zoom in
          let topright := unproject_pixels S ((xmax + 1) * S, ymin * S) zoom in
          (bottomleft.1, bottomleft.2, topright.1, topright.2)).
Proof.
  intros _ Hdb (r & Hin & Hz).
  unfold find_coverage, _query. rewrite Hdb. simpl.
  assert (Hfilter : filter (fun r => zoom_level r = zoom) rows
                    = filter (fun r => at_zoom zoom r = true) rows).
  { apply list_filter_iff. intros t. unfold at_zoom. symmetry. apply Z.eqb_eq. }
  rewrite Hfilter.
  set (here := filter (fun r => at_zoom zoom r = true) rows).
  pose proof (select_columns_rows_sorted here) as Hsorted.
  pose proof (select_columns_rows_perm here) as Hperm.
  destruct (select_columns_rows here) as [|[xmin ymin] rest] eqn:Hsel.
  - exfalso. symmetry in Hperm. apply Permutation_nil_r in Hperm.
    apply fmap_nil_inv in Hperm.
    assert (Hr : r ∈ here).
    { apply list_elem_of_filter. split; [|exact Hin].
      unfold at_zoom. apply Z.eqb_eq. exact Hz. }
    rewrite Hperm in Hr. inversion Hr.
  - simpl fetchone. cbv iota beta.
    replace (xmin - xmin <=? 1) with true by (symmetry; apply Z.leb_le; lia).
    pose proof (adjacent_column_run rest (xmin, ymin) Hsorted) as Hrun.
    destruct (adjacent (xmin, ymin) rest) as [xmax ymax] eqn:Hadj.
    exists xmin, ymin, xmax, ymax, rest. cbv zeta.
    split; [exact Hperm|]. split; [exact Hsorted|]. split; [exact Hrun|].
    split; [exact (column_run_ignores_rows ((xmin, ymin) :: rest))|].
    simpl. replace (xmin - xmin <=? 1) with true by (symmetry; apply Z.leb_le; lia).
    rewrite Hadj. reflexivity.
Qed.

(** C6, as the code has it: at a zoom without stored tiles the
    unpacking [xmin, ymin = t] of [None] raises [TypeError]; no
    [ExtractionError] is raised. *)
Theorem find_coverage_no_tiles S db rows zoom :
  tiles db = Some rows ->
  (forall r, r ∈ rows -> zoom_level r <> zoom) ->
  find_coverage coord unproject_pixels S db zoom = Raise TypeError.
Proof.
  intros Hdb Hnone. unfold find_coverage, _query. rewrite Hdb. simpl.
  rewrite filter_none; [reflexivity|].
  intros r Hin Hat. apply (Hnone r Hin).
  unfold at_zoom in Hat. apply Z.eqb_eq. exact Hat.
Qed.
End Coverage.
End CoverageFacts.

(** ** Remote downloads *)

Module DownloadFacts.
Import TileDownloader.

Lemma locals_lookup_None self_str z x y output size s name :
  locals self_str z x y output size s !! name = None <-> name ∉ local_names.
Proof.
  unfold locals. rewrite <- not_elem_of_list_to_map. reflexivity.
Qed.

Lemma subdomain_nonempty subdomains x y :
  subdomains <> [] -> exists s, subdomain subdomains x y = Ok s.
Proof.
  intros Hne. unfold subdomain.
  assert (Hlen : 0 < Z.of_nat (length subdomains)).
  { destruct subdomains; [contradiction | simpl; lia]. }
  destruct (Z.eqb_spec (Z.of_nat (length subdomains)) 0) as [E|_]; [lia|].
  pose proof (Z.mod_pos_bound (x + y) _ Hlen) as Hb.
  destruct (lookup_lt_is_Some_2 subdomains
              (Z.to_nat ((x + y) mod Z.of_nat (length subdomains))))
    as [s Hs]; [lia|].
  exists s. rewrite Hs. reflexivity.
Qed.

Lemma letter_is_no_digit c : is_letter c = true -> is_digit c = false.
Proof.
  destruct c as [[] [] [] [] [] [] [] []]; intros H;
    first [reflexivity | discriminate H].
Qed.

Lemma identifier_is_keyword name :
  is_identifier name = true -> is_positional name = false.
Proof.
  destruct name as [|c rest]; [discriminate|]. simpl.
  intros H. apply andb_true_iff in H as [Hc _].
  rewrite (letter_is_no_digit c Hc). reflexivity.
Qed.

(** [format] stops at the leftmost field it cannot replace. *)
Lemma format_unknown template kwargs :
  (forall name, Field name ∈ template -> is_positional name = false) ->
  (exists name, Field name ∈ template /\ kwargs !! name = None) ->
  exists name, Field name ∈ template /\ kwargs !! name = None /\
               format template kwargs = Raise (KeyError name).
Proof.
  induction template as [|p template IH]; intros Hkw (name & Hin & Hnone).
  - inversion Hin.
  - assert (Hkw' : forall n, Field n ∈ template -> is_positional n = false).
    { intros n Hn. apply Hkw. right. exact Hn. }
    destruct p as [s|n].
    + apply elem_of_cons in Hin as [Heq|Hin]; [discriminate|].
      destruct (IH Hkw' (ex_intro _ name (conj Hin Hnone)))
        as (k & Hk & Hknone & Hfmt).
      exists k. split; [right; exact Hk|]. split; [exact Hknone|].
      simpl. rewrite Hfmt. reflexivity.
    + simpl. rewrite (Hkw n) by left.
      destruct (kwargs !! n) as [v|] eqn:Hn.
      * apply elem_of_cons in Hin as [Heq|Hin]; [congruence|].
        destruct (IH Hkw' (ex_intro _ name (conj Hin Hnone)))
          as (k & Hk & Hknone & Hfmt).
        exists k. split; [right; exact Hk|]. split; [exact Hknone|].
        rewrite Hfmt. reflexivity.
      * exists n. split; [left|]. split; [exact Hn|reflexivity].
Qed.

Section Tile.
Variable DOWNLOAD_RETRIES : Z.
Variable self_str : string.
Variable backend : string -> nat -> retrieved.

(** One turn of the loop. *)
Lemma attempts_S r url w :
  attempts backend (S r) url w =
    match backend url (requests w) with
    | Retrieved body => (Ok tt, World (Some body) (S (requests w)))
    | Failed e written =>
        let w1 := World (from_option Some (file w) written) (S (requests w)) in
        if is_IOError e then attempts backend r url w1 else (Raise e, w1)
    end.
Proof.
  simpl. unfold try_except, retrieve.
  destruct (backend url (requests w)) as [body|e written]; [reflexivity|].
  destruct (is_IOError e); reflexivity.
Qed.

Lemma attempts_success url k : forall r w body,
  (k < r)%nat ->
  (forall i, (i < k)%nat -> fails backend url (requests w + i)) ->
  backend url (requests w + k) = Retrieved body ->
  attempts backend r url w = (Ok tt, World (Some body) (requests w + k + 1)).
Proof.
  induction k as [|k IH]; intros r w body Hlt Hfail Hok;
    (destruct r as [|r]; [lia|]); rewrite attempts_S.
  - rewrite Nat.add_0_r in Hok. rewrite Hok.
    do 2 f_equal. lia.
  - destruct (Hfail 0%nat ltac:(lia)) as [written Hw].
    rewrite Nat.add_0_r in Hw. rewrite Hw. simpl.
    rewrite (IH r _ body); simpl.
    + do 2 f_equal. lia.
    + lia.
    + intros i Hi. rewrite <- Nat.add_succ_r. apply Hfail. lia.
    + rewrite <- Nat.add_succ_r. exact Hok.
Qed.

Lemma attempts_exhausted url r : forall w,
  (forall i, (i < r)%nat -> fails backend url (requests w + i)) ->
  exists f, attempts backend r url w =
              (Raise (DownloadError None), World f (requests w + r)).
Proof.
  induction r as [|r IH]; intros w Hfail.
  - exists (file w). simpl. unfold raise. destruct w; simpl.
    rewrite Nat.add_0_r. reflexivity.
  - rewrite attempts_S.
    destruct (Hfail 0%nat ltac:(lia)) as [written Hw].
    rewrite Nat.add_0_r in Hw. rewrite Hw. simpl.
    destruct (IH (World (from_option Some (file w) written) (S (requests w))))
      as [f Hf].
    + simpl. intros i Hi. rewrite <- Nat.add_succ_r. apply Hfail. lia.
    + exists f. rewrite Hf. simpl. do 2 f_equal. lia.
Qed.

(** Every run of the loop, whatever the backend does. *)
Lemma attempts_run url r : forall w w' res,
  attempts backend r url w = (res, w') ->
  (requests w <= requests w' <= requests w + r)%nat /\
  match res with
  | Ok _ =>
      (requests w < requests w')%nat /\
      exists body, backend url (requests w' - 1) = Retrieved body /\
                   file w' = Some body /\
                   forall i, (requests w <= i < requests w' - 1)%nat ->
                             fails backend url i
  | Raise e =>
      file w' = file w \/
      exists n e' p, (requests w <= n < requests w')%nat /\
                     backend url n = Failed e' (Some p) /\
                     file w' = Some p
  end.
Proof.
  induction r as [|r IH]; intros w w' res Hrun.
  - simpl in Hrun. injection Hrun as <- <-. split; [lia|]. left. reflexivity.
  - rewrite attempts_S in Hrun.
    destruct (backend url (requests w)) as [body|e written] eqn:Hb;
      cbv zeta in Hrun.
    + injection Hrun as <- <-. simpl. split; [lia|]. split; [lia|].
      exists body. rewrite Nat.sub_0_r. split; [exact Hb|].
      split; [reflexivity|]. intros i Hi. lia.
    + set (w1 := World (from_option Some (file w) written) (S (requests w)))
        in Hrun.
      assert (Hw1 : file w1 = file w \/
                    exists p, written = Some p /\ file w1 = Some p).
      { destruct written as [p|]; simpl; eauto. }
      destruct (is_IOError e) eqn:He.
      * destruct e; try discriminate He.
        destruct (IH w1 w' res Hrun) as [Hreq Hres]. simpl in Hreq.
        split; [lia|]. destruct res as [u|e].
        -- destruct Hres as (Hlt & body & Hbody & Hfile & Hbefore).
           simpl in Hlt. split; [lia|]. exists body.
           split; [exact Hbody|]. split; [exact Hfile|].
           intros i Hi. destruct (decide (i = requests w)) as [->|Hne].
           ++ exists written. exact Hb.
           ++ apply Hbefore. simpl. lia.
        -- destruct Hres as [Hsame|(n & e' & p & Hn & Hbn & Hfile)].
           ++ rewrite Hsame. destruct Hw1 as [Hw1|(p & -> & Hw1)].
              ** left. exact Hw1.
              ** right. exists (requests w), IOError, p.
                 split; [lia|]. split; [exact Hb|exact Hw1].
           ++ right. exists n, e', p. simpl in Hn.
              split; [lia|]. split; [exact Hbn|exact Hfile].
      * injection Hrun as <- <-. simpl. split; [lia|].
        destruct Hw1 as [Hw1|(p & -> & Hw1)].
        -- left. exact Hw1.
        -- right. exists (requests w), e, p.
           split; [lia|]. split; [exact Hb|exact Hw1].
Qed.

Lemma tile_attempts self z x y output s url w :
  subdomain (tiles_subdomains self) x y = Ok s ->
  format (tiles_url self) (locals self_str z x y output (tilesize self) s)
    = Ok url ->
  tile DOWNLOAD_RETRIES self_str backend self z x y output w =
    attempts backend (Z.to_nat DOWNLOAD_RETRIES) url w.
Proof.
  intros Hs Hurl. unfold tile, bind, lift. rewrite Hs, Hurl. reflexivity.
Qed.

(** C7. With retry budget [R = DOWNLOAD_RETRIES] and a template that
    formats to [url]: [R-1] failed transfers followed by a successful
    one make [tile] return with the body in the output file; [R]
    failed transfers make it raise the bare [DownloadError]; no run
    issues more than [R] requests; and a run that returns has stopped
    at its first successful request. *)
Theorem retry_boundary self z x y output s url w :
  subdomain (tiles_subdomains self) x y = Ok s ->
  format (tiles_url self) (locals self_str z x y output (tilesize self) s)
    = Ok url ->
  let R := Z.to_nat DOWNLOAD_RETRIES in
  let n0 := requests w in
  let run := tile DOWNLOAD_RETRIES self_str backend self z x y output w in
  (forall body,
     (0 < R)%nat ->
     (forall i, (i < R - 1)%nat -> fails backend url (n0 + i)) ->
     backend url (n0 + (R - 1)) = Retrieved body ->
     run = (Ok tt, World (Some body) (n0 + R))) /\
  ((forall i, (i < R)%nat -> fails backend url (n0 + i)) ->
   exists f, run = (Raise (DownloadError None), World f (n0 + R))) /\
  (n0 <= requests (snd run) <= n0 + R)%nat /\
  (forall u w',
     run = (Ok u, w') ->
     exists body,
       backend url (requests w' - 1) = Retrieved body /\
       file w' = Some body /\
       forall i, (n0 <= i < requests w' - 1)%nat -> fails backend url i).
Proof.
  intros Hs Hurl R n0 run. subst run.
  rewrite (tile_attempts _ _ _ _ _ _ _ _ Hs Hurl). fold R.
  split; [|split; [|split]].
  - intros body HR Hfail Hok.
    rewrite (attempts_success url (R - 1) R w body); [|lia|exact Hfail|exact Hok].
    do 2 f_equal. fold n0. lia.
  - intros Hfail. exact (attempts_exhausted url R w Hfail).
  - destruct (attempts backend R url w) as [res w'] eqn:Hrun.
    exact (proj1 (attempts_run url R w w' res Hrun)).
  - intros u w' Hrun.
    destruct (attempts_run url R w w' (Ok u) Hrun)
      as (_ & _ & body & Hbody & Hfile & Hbefore).
    exists body. auto.
Qed.

(** C9, as the code has it. With at least one subdomain and a template
    whose fields are all plain keywords (identifiers: no index, no
    attribute or index access, no conversion, no format specification),
    a field that is none of the names [locals()] binds ([z], [x], [y],
    [s], [size] and also [self] and [output]) makes [tile] raise the
    [DownloadError] that names the unknown keyword, in an unchanged
    world: no request is made and nothing is retried. *)
Theorem unknown_keyword self z x y output w :
  tiles_subdomains self <> [] ->
  (forall name, Field name ∈ tiles_url self -> is_identifier name = true) ->
  (exists name, Field name ∈ tiles_url self /\ name ∉ local_names) ->
  exists name,
    Field name ∈ tiles_url self /\ (name ∉ local_names) /\
    tile DOWNLOAD_RETRIES self_str backend self z x y output w =
      (Raise (DownloadError (Some name)), w).
Proof.
  intros Hne Hkw (name & Hin & Hname).
  destruct (subdomain_nonempty _ x y Hne) as [s Hs].
  destruct (format_unknown (tiles_url self)
              (locals self_str z x y output (tilesize self) s))
    as (k & Hk & Hknone & Hfmt).
  { intros n Hn. apply identifier_is_keyword. apply Hkw. exact Hn. }
  { exists name. split; [exact Hin|]. apply locals_lookup_None. exact Hname. }
  exists k. split; [exact Hk|]. split.
  - apply locals_lookup_None in Hknone. exact Hknone.
  - unfold tile, bind, lift. rewrite Hs, Hfmt. reflexivity.
Qed.

(** The output file after any call of [tile]. *)
Lemma tile_sink self z x y output w res w' :
  tile DOWNLOAD_RETRIES self_str backend self z x y output w = (res, w') ->
  match res with
  | Ok _ =>
      exists url body,
        backend url (requests w' - 1) = Retrieved body /\
        file w' = Some body
  | Raise e =>
      file w' = file w \/
      exists url n e' p, (requests w <= n < requests w')%nat /\
                         backend url n = Failed e' (Some p) /\
                         file w' = Some p
  end.
Proof.
  unfold tile, bind, lift.
  destruct (subdomain (tiles_subdomains self) x y) as [s|e].
  2:{ intros [= <- <-]. left; reflexivity. }
  destruct (format _ _) as [url|e] eqn:Hfmt.
  2:{ destruct e; intros [= <- <-]; left; reflexivity. }
  intros Hrun.
  destruct (attempts_run url _ w w' res Hrun) as [Hreq Hres].
  destruct res as [u|e].
  - destruct Hres as (_ & body & Hbody & Hfile & _). eauto.
  - destruct Hres as [Hsame|(n & e' & p & H)]; [left; exact Hsame|].
    right. exists url, n, e', p. exact H.
Qed.
End Tile.
End DownloadFacts.

(** ** WMS requests *)

Module WMSFacts.
Import WMSReader.

Section Init.
Variable DEFAULT_TILE_SIZE : Z.
Variable version : Type.
Variable parse_version : pyval -> result version.
Variable version_ge : version -> version -> bool.
Variable NAME : string.

Lemma version_in_force layers tilesize (kwargs : gmap string pyval) :
  (kwargs ∪ defaults layers tilesize) !! "version"
  = Some (effective_version kwargs).
Proof.
  unfold effective_version. rewrite lookup_union.
  destruct (kwargs !! "version") as [v|]; reflexivity.
Qed.

(** C10. Whatever the overrides, when the version in force parses,
    the parameters built by the constructor bind [crs] if that
    version is [>= 1.3] and [srs] otherwise, and bind it to
    [GoogleProjection.NAME], also when the overrides gave that key a
    value; every other key is as the overrides and the defaults set
    it. *)
Theorem projection_parameter url layers tilesize kwargs v v13 :
  parse_version (effective_version kwargs) = Ok v ->
  parse_version (VStr "1.3") = Ok v13 ->
  exists self,
    __init__ DEFAULT_TILE_SIZE version parse_version version_ge NAME
             url layers tilesize kwargs = Ok self /\
    let projectionKey := if version_ge v v13 then "crs" else "srs" in
    wmsParams self !! projectionKey = Some (VStr NAME) /\
    forall k, k <> projectionKey ->
      wmsParams self !! k =
        (kwargs ∪ defaults layers (Reader_init DEFAULT_TILE_SIZE tilesize)) !! k.
Proof.
  intros Hv Hv13. unfold __init__, getitem.
  rewrite version_in_force. simpl. rewrite Hv. simpl. rewrite Hv13. simpl.
  eexists. split; [reflexivity|]. simpl. split.
  - apply lookup_insert_eq.
  - intros k Hk. apply lookup_insert_ne. congruence.
Qed.
End Init.

Lemma projection_parameter_witness :
  exists self,
    __init__ 256 Z Samples.parse_version Samples.version_ge Samples.NAME
             "http://wms.test/" ["osm"] None Samples.kwargs130 = Ok self /\
    wmsParams self !! "crs" = Some (VStr "EPSG:3857").
Proof.
  destruct (projection_parameter 256 Z Samples.parse_version
              Samples.version_ge Samples.NAME "http://wms.test/" ["osm"]
              None Samples.kwargs130 130 130 eq_refl eq_refl)
    as (self & Hinit & Hkey & _).
  exists self. split; [exact Hinit | exact Hkey].
Defined.

Section Tile.
Variable bbox_string : Z -> Z -> Z -> Z -> string.
Variable urlencode : gmap string pyval -> string.
Variable backend : string -> nat -> response.

(** What [tile] does, by the answer of the server. *)
Lemma tile_run self z x y w :
  tile bbox_string urlencode backend self z x y w =
    let url := (url self +:+ "?" +:+ urlencode (wmsParams self))
               +:+ "&bbox=" +:+ bbox_string (tilesize self) z x y in
    let n := S (requests w) in
    match backend url (requests w) with
    | Refused e =>
        (Raise (if handled e then ExtractionError else e), World (file w) n)
    | Opened header body =>
        match wmsParams self !! "format" with
        | None => (Raise (KeyError "format"), World (file w) n)
        | Some fmt =>
            if header_eq header fmt then
              match body with
              | Ok b => (Ok tt, World (Some b) n)
              | Raise e =>
                  (Raise (if handled e then ExtractionError else e),
                   World (Some []) n)
              end
            else (Raise ExtractionError, World (file w) n)
        end
    end.
Proof.
  unfold tile, try_except, bind, urlopen, lift, getitem, assert. cbv zeta.
  destruct (backend _ (requests w)) as [e|header body]; simpl.
  - destruct (handled e); reflexivity.
  - destruct (wmsParams self !! "format") as [fmt|]; simpl; [|reflexivity].
    destruct (header_eq header fmt); simpl; [|reflexivity].
    destruct body as [b|e]; simpl; [reflexivity|].
    destruct (handled e); reflexivity.
Qed.
End Tile.
End WMSFacts.

(** ** The output file after a fetch *)

Module SinkFacts.

Lemma extract_sink db z x y w res w' :
  MBTilesReader.extract db z x y w = (res, w') ->
  match res with
  | Ok _ =>
      exists rows t, MBTilesReader.tiles db = Some rows /\ t ∈ rows /\
                     file w' = Some (MBTilesReader.tile_data t)
  | Raise _ => w' = w
  end.
Proof.
  destruct (MBTilesReader.tiles db) as [rows|] eqn:Hdb.
  - rewrite (MBTilesFacts.extract_eq _ _ _ _ _ _ Hdb).
    destruct (List.find _ rows) as [t|] eqn:Hfind; intros [= <- <-].
    + exists rows, t. split; [reflexivity|]. split; [|reflexivity].
      apply List.find_some in Hfind as [Hin _].
      apply list_elem_of_In. exact Hin.
    + reflexivity.
  - unfold MBTilesReader.extract, bind, lift, MBTilesReader._query.
    rewrite Hdb. intros [= <- <-]. reflexivity.
Qed.

Lemma mbtiles_tile_sink db z x y w res w' :
  MBTilesReader.tile db z x y w = (res, w') ->
  match res with
  | Ok _ =>
      exists rows t, MBTilesReader.tiles db = Some rows /\ t ∈ rows /\
                     file w' = Some (MBTilesReader.tile_data t)
  | Raise _ => w' = w
  end.
Proof. intros [= <- <-]. reflexivity. Qed.

(** C8, as the code has it. A fetch that returns has stored a complete
    body in the output file. A fetch that raises leaves the file
    untouched in the archive reader (in [tile] and in the statements
    below its first line alike); in the downloader it leaves it untouched
    or holding what a failed transfer of this call wrote; the WMS
    requester leaves it untouched when the request is refused or the
    content type differs from the requested format, and empty when
    reading the body fails after the type check. *)
Theorem sink_after_fetch :
  (forall db z x y w res w',
     MBTilesReader.tile db z x y w = (res, w') \/
     MBTilesReader.extract db z x y w = (res, w') ->
     match res with
     | Ok _ =>
         exists rows t, MBTilesReader.tiles db = Some rows /\ t ∈ rows /\
                        file w' = Some (MBTilesReader.tile_data t)
     | Raise _ => w' = w
     end) /\
  (forall R self_str backend self z x y output w res w',
     TileDownloader.tile R self_str backend self z x y output w = (res, w') ->
     match res with
     | Ok _ =>
         exists url body,
           backend url (requests w' - 1)%nat = TileDownloader.Retrieved body /\
           file w' = Some body
     | Raise e =>
         file w' = file w \/
         exists url n e' p,
           (requests w <= n < requests w')%nat /\
           backend url n = TileDownloader.Failed e' (Some p) /\
           file w' = Some p
     end) /\
  (forall bbox_string urlencode backend self z x y w,
     WMSReader.tile bbox_string urlencode backend self z x y w =
       let url := (WMSReader.url self +:+ "?" +:+
                   urlencode (WMSReader.wmsParams self))
                  +:+ "&bbox=" +:+
                  bbox_string (WMSReader.tilesize self) z x y in
       let n := S (requests w) in
       match backend url (requests w) with
       | WMSReader.Refused e =>
           (Raise (if WMSReader.handled e then ExtractionError else e),
            World (file w) n)
       | WMSReader.Opened header body =>
           match WMSReader.wmsParams self !! "format" with
           | None => (Raise (KeyError "format"), World (file w) n)
           | Some fmt =>
               if WMSReader.header_eq header fmt then
                 match body with
                 | Ok b => (Ok tt, World (Some b) n)
                 | Raise e =>
                     (Raise (if WMSReader.handled e
                             then ExtractionError else e),
                      World (Some []) n)
                 end
               else (Raise ExtractionError, World (file w) n)
           end
       end).
Proof.
  split; [|split].
  - intros db z x y w res w' [Hrun|Hrun].
    + exact (mbtiles_tile_sink _ _ _ _ _ _ _ Hrun).
    + exact (extract_sink _ _ _ _ _ _ _ Hrun).
  - exact DownloadFacts.tile_sink.
  - exact WMSFacts.tile_run.
Qed.

Lemma sink_after_fetch_witness :
  WMSReader.tile Samples.bbox_string Samples.urlencode Samples.xml_backend
                 Samples.wms 2 3 1 Samples.w0
  = (Raise ExtractionError, World None 1).
Proof.
  rewrite (proj2 (proj2 sink_after_fetch)). reflexivity.
Defined.

(** C8 as stated fails in the downloader: [retrieve] writes to the
    output path itself, so transfers that break off leave their bytes
    behind when [DownloadError] is raised. *)
Lemma download_failure_touches_sink :
  TileDownloader.tile 2 Samples.self_str Samples.truncating
                      (Samples.downloader Samples.template_zxy)
                      2 3 1 "out.png" Samples.w0
  = (Raise (DownloadError None), World (Some [Byte.x89]) 2) /\
  file (World (Some [Byte.x89]) 2) <> file Samples.w0.
Proof. split; [vm_compute; reflexivity | discriminate]. Qed.

End SinkFacts.

(** ** The sample inputs, run *)

Module SampleFacts.
Import Samples.

(** The round trip of the design document, run below the first line of
    [tile]: the tile stored at (1, 1, 1) answers the request (1, 1, 0). *)
Example extract_stored_tile :
  MBTilesReader.extract db1 1 1 0 w0 = (Ok tt, World (Some png2) 0) /\
  MBTilesReader.extract db1 1 0 0 w0 = (Raise ExtractionError, w0) /\
  MBTilesReader.tile db1 1 1 0 w0 = (Raise TypeError, w0).
Proof. repeat split; vm_compute; reflexivity. Qed.

(** The grid example of the design document: two fragments under
    distinct keys, both in [data] and nothing else. *)
Example grid_two_keys :
  MBTilesReader.grid_json decompress loads db1 0 0 0 =
    Ok (JObj {["data" := JObj {["a" := JNum 1; "b" := JNum 2]}]}).
Proof. vm_compute. reflexivity. Qed.

(** The version switch of the design document. *)
Example version_switch :
  (exists self,
     WMSReader.__init__ 256 Z parse_version version_ge NAME
       "http://wms.test/" ["osm"] None ∅ = Ok self /\
     WMSReader.wmsParams self !! "srs" = Some (WMSReader.VStr NAME) /\
     WMSReader.wmsParams self !! "crs" = None) /\
  (exists self,
     WMSReader.__init__ 256 Z parse_version version_ge NAME
       "http://wms.test/" ["osm"] None {["version" := WMSReader.VStr "1.3.0"]}
     = Ok self /\
     WMSReader.wmsParams self !! "crs" = Some (WMSReader.VStr NAME) /\
     WMSReader.wmsParams self !! "srs" = None).
Proof. split; eexists; (split; [reflexivity|]); split; reflexivity. Qed.

(** The messages of the three [tile] methods against their arguments. *)
Example tile_messages :
  debug "Extract tile %s" 3 = Raise TypeError /\
  debug "Download tile %s" 1 = Ok tt /\
  debug "Request WMS tile %s" 1 = Ok tt.
Proof. repeat split. Qed.

Lemma find_coverage_scan_witness :
  exists xmin ymin xmax ymax rest,
    (xmin, ymin) :: rest ≡ₚ [(1, 1); (0, 0); (1, 0)] /\
    last (MBTilesReader.column_run ((xmin, ymin) :: rest)) = Some (xmax, ymax) /\
    MBTilesReader.find_coverage Z unproject_pixels 256 db1 1 =
      Ok (xmin * 256, (ymax + 1) * 256, (xmax + 1) * 256, ymin * 256).
Proof.
  destruct (CoverageFacts.find_coverage_scan Z unproject_pixels 256 db1
              tiles_zoom1 1 ltac:(unfold MBTilesReader.sqlite_int; lia) eq_refl)
    as (xmin & ymin & xmax & ymax & rest & Hperm & _ & Hlast & _ & Hrun).
  - exists (MBTilesReader.TilesRow 1 0 0 png1).
    split; [repeat constructor | reflexivity].
  - exists xmin, ymin, xmax, ymax, rest.
    split; [exact Hperm|]. split; [exact Hlast | exact Hrun].
Defined.

(** The coverage example of the design document: the run spans the
    three tiles and the corners use [xmin = 0], [ymin = 0], [xmax = 1],
    [ymax = 1]. *)
Example find_coverage_zoom1 :
  MBTilesReader.select_columns_rows tiles_zoom1 = [(0, 0); (1, 0); (1, 1)] /\
  MBTilesReader.column_run [(0, 0); (1, 0); (1, 1)] = [(0, 0); (1, 0); (1, 1)] /\
  MBTilesReader.find_coverage Z unproject_pixels 256 db1 1 =
    Ok (0, 512, 512, 0).
Proof. repeat split; vm_compute; reflexivity. Qed.

Lemma find_coverage_no_tiles_witness :
  MBTilesReader.find_coverage Z unproject_pixels 256 db1 5 = Raise TypeError.
Proof.
  apply (CoverageFacts.find_coverage_no_tiles Z unproject_pixels 256 db1
           tiles_zoom1 5 eq_refl).
  intros r Hin.
  repeat (apply elem_of_cons in Hin as [->|Hin]; [discriminate|]).
  inversion Hin.
Defined.

Example subdomain_selection :
  TileDownloader.subdomain ["a"; "b"] 3 1 = Ok "a" /\
  TileDownloader.format template_zxy
    (TileDownloader.locals self_str 2 3 1 "out.png" 256 "a")
  = Ok "http://a.tile.test/2/3/1.png".
Proof. split; vm_compute; reflexivity. Qed.

Lemma retry_boundary_witness :
  TileDownloader.tile 3 self_str (flaky 2) (downloader template_zxy)
                      2 3 1 "out.png" w0
  = (Ok tt, World (Some png1) 3).
Proof.
  destruct (DownloadFacts.retry_boundary 3 self_str (flaky 2)
              (downloader template_zxy) 2 3 1 "out.png" "a"
              "http://a.tile.test/2/3/1.png" w0 eq_refl eq_refl)
    as [Hlast _].
  apply (Hlast png1).
  - simpl. lia.
  - intros i Hi. exists None.
    destruct i as [|[|i]]; [reflexivity | reflexivity | simpl in Hi; lia].
  - reflexivity.
Defined.

Lemma unknown_keyword_witness :
  exists name,
    TileDownloader.tile 3 self_str (flaky 0) (downloader template_foo)
                        2 3 1 "out.png" w0
    = (Raise (DownloadError (Some name)), w0).
Proof.
  destruct (DownloadFacts.unknown_keyword 3 self_str (flaky 0)
              (downloader template_foo) 2 3 1 "out.png" w0)
    as (name & _ & _ & Hrun).
  - discriminate.
  - intros name Hin.
    repeat (apply elem_of_cons in Hin as [Heq|Hin];
            [first [discriminate Heq | injection Heq as ->; reflexivity]|]).
    inversion Hin.
  - exists "foo". split; [repeat constructor|].
    unfold TileDownloader.local_names. intros Hin.
    repeat (apply elem_of_cons in Hin as [Heq|Hin]; [discriminate Heq|]).
    inversion Hin.
  - exists name. exact Hrun.
Defined.

(** C7 as stated fails for a failed transfer that is no [IOError]: with
    a budget of 3, two requests answered with a broken status line and a
    third that would succeed, [tile] does not return; the first
    [HTTPException] escapes after one request. *)
Lemma other_failure_ends_the_retries :
  bad_status 2 "http://a.tile.test/2/3/1.png" 0
  = TileDownloader.Failed HTTPException None /\
  bad_status 2 "http://a.tile.test/2/3/1.png" 1
  = TileDownloader.Failed HTTPException None /\
  bad_status 2 "http://a.tile.test/2/3/1.png" 2
  = TileDownloader.Retrieved png1 /\
  TileDownloader.tile 3 self_str (bad_status 2) (downloader template_zxy)
                      2 3 1 "out.png" w0
  = (Raise HTTPException, World None 1).
Proof. repeat split. Qed.

(** C9 as stated fails for the placeholder [{output}]: it is none of
    [{z}], [{x}], [{y}], [{s}], [{size}], yet [locals()] binds it, so the
    template formats and a request is made. *)
Lemma output_placeholder_is_replaced :
  TileDownloader.Field "output" ∈ template_output /\
  ("output" ∉ ["z"; "x"; "y"; "s"; "size"]) /\
  TileDownloader.format template_output
    (TileDownloader.locals self_str 2 3 1 "out.png" 256 "a")
  = Ok "http://a.tile.test/out.png" /\
  TileDownloader.tile 3 self_str (flaky 0) (downloader template_output)
                      2 3 1 "out.png" w0
  = (Ok tt, World (Some png1) 1).
Proof.
  split; [repeat constructor|]. split.
  - intros Hin.
    repeat (apply elem_of_cons in Hin as [Heq|Hin]; [discriminate Heq|]).
    inversion Hin.
  - split; vm_compute; reflexivity.
Qed.
End SampleFacts.

(** * Further properties of the readers *)

(** ** Metadata and zoom levels *)

Module ArchiveFacts.
Import MBTilesReader.

Lemma query_all {A} (table : list A) :
  _query (Some table) (fun _ => true) = Ok table.
Proof.
  unfold _query. simpl. f_equal.
  induction table as [|a table IH]; [reflexivity|].
  rewrite filter_cons, decide_True by reflexivity. f_equal. exact IH.
Qed.

Lemma find_rev_snoc {A} (f : A -> bool) (l : list A) (a : A) :
  List.find f (rev (l ++ [a])) =
    if f a then Some a else List.find f (rev l).
Proof. rewrite rev_app_distr. reflexivity. Qed.

(** [dict] read back: the pairs stored last win. *)
Lemma dict_lookup (rows : list metadata_row) (k : string) :
  dict (map (fun row => (m_name row, m_value row)) rows) !! k
  = last_value k rows.
Proof.
  unfold dict, last_value.
  induction rows as [|row rows IH] using rev_ind; [reflexivity|].
  rewrite map_app, fold_left_app, find_rev_snoc. simpl.
  case_bool_decide as Hk.
  - subst k. rewrite lookup_insert_eq. reflexivity.
  - rewrite lookup_insert_ne by exact Hk. exact IH.
Qed.

(** X1. On a readable [metadata] table [metadata] returns a mapping
    that binds a name to the value of the last row carrying it, and
    binds exactly the names of the table. *)
Theorem metadata_last_row_wins rows :
  exists d : gmap string string,
    metadata (Some rows) = Ok d /\
    (forall k, d !! k = last_value k rows) /\
    (forall k, k ∈ dom d <-> exists row, row ∈ rows /\ m_name row = k).
Proof.
  eexists. split; [|split].
  - unfold metadata. rewrite query_all. reflexivity.
  - intros k. apply dict_lookup.
  - intros k. rewrite elem_of_dom, dict_lookup. unfold last_value.
    rewrite fmap_is_Some. split.
    + intros [row Hrow]. apply List.find_some in Hrow as [Hin Hk].
      exists row. split.
      * apply list_elem_of_In, in_rev. exact Hin.
      * apply bool_decide_eq_true in Hk. exact Hk.
    + intros (row & Hin & Hk).
      destruct (List.find _ (rev rows)) as [row'|] eqn:Hfind; [eauto|].
      exfalso. apply list_elem_of_In, in_rev in Hin.
      pose proof (List.find_none _ _ Hfind row Hin) as Hf. simpl in Hf.
      apply bool_decide_eq_false in Hf. contradiction.
Qed.

Lemma metadata_last_row_wins_witness :
  exists d : gmap string string,
    metadata (Some Samples.metadata_rows) = Ok d /\
    d !! "version" = Some "1.1" /\ d !! "name" = Some "osm" /\
    d !! "bounds" = None.
Proof.
  destruct (metadata_last_row_wins Samples.metadata_rows) as (d & Hd & Hget & _).
  exists d. split; [exact Hd|]. rewrite !Hget. repeat split.
Defined.

Lemma strictly_ascending (l : list Z) :
  StronglySorted Z.le l -> NoDup l -> StronglySorted Z.lt l.
Proof.
  induction 1 as [|a l Hs IH Hall]; intros Hnd; constructor.
  - apply IH. apply NoDup_cons in Hnd as [_ Hnd]. exact Hnd.
  - apply NoDup_cons in Hnd as [Hfresh _].
    rewrite List.Forall_forall in Hall. apply List.Forall_forall.
    intros b Hb. pose proof (Hall b Hb) as Hle.
    assert (a <> b) by (intros ->; apply Hfresh, list_elem_of_In, Hb). lia.
Qed.

Lemma select_distinct_zoom_level_elem rows z :
  z ∈ select_distinct_zoom_level rows <->
  exists t, t ∈ rows /\ zoom_level t = z.
Proof.
  unfold select_distinct_zoom_level.
  rewrite (merge_sort_Permutation Z.le), elem_of_remove_dups.
  change (map zoom_level rows) with (zoom_level <$> rows).
  rewrite list_elem_of_fmap. split; intros (t & H1 & H2); exists t; auto.
Qed.

Lemma zoomlevels_eq db rows :
  tiles db = Some rows ->
  zoomlevels db = Ok (select_distinct_zoom_level rows).
Proof.
  intros Hdb. unfold zoomlevels. rewrite Hdb, query_all. simpl.
  rewrite map_id. reflexivity.
Qed.

(** X2. On a readable [tiles] table whose zoom levels are integers
    [zoomlevels] returns the zoom levels that hold a tile, each once, in
    strictly ascending order. *)
Theorem zoomlevels_ascending db rows :
  tiles db = Some rows ->
  exists zs,
    zoomlevels db = Ok zs /\
    StronglySorted Z.lt zs /\
    forall z, z ∈ zs <-> exists t, t ∈ rows /\ zoom_level t = z.
Proof.
  intros Hdb. exists (select_distinct_zoom_level rows).
  split; [exact (zoomlevels_eq _ _ Hdb)|]. split.
  - apply strictly_ascending.
    + apply Sorted_StronglySorted; [intros a b c; apply Z.le_trans|].
      apply (Sorted_merge_sort Z.le).
    + unfold select_distinct_zoom_level.
      rewrite (merge_sort_Permutation Z.le). apply NoDup_remove_dups.
  - apply select_distinct_zoom_level_elem.
Qed.

Lemma zoomlevels_ascending_witness :
  exists zs,
    zoomlevels Samples.db_zooms = Ok zs /\
    StronglySorted Z.lt zs /\
    forall z, z ∈ zs <-> exists t, t ∈ Samples.tiles_zooms /\ zoom_level t = z.
Proof.
  exact (zoomlevels_ascending Samples.db_zooms Samples.tiles_zooms eq_refl).
Defined.

Example zoomlevels_sample : zoomlevels Samples.db_zooms = Ok [1; 3].
Proof. vm_compute. reflexivity. Qed.

#[local] Instance pair_le_transitive : Transitive pair_le.
Proof. intros [a b] [c d] [e f]. unfold pair_le. simpl. lia. Qed.

Lemma pair_le_refl p : pair_le p p.
Proof. unfold pair_le. lia. Qed.

Lemma select_columns_rows_elem rows zoom c r :
  (c, r) ∈ select_columns_rows (filter (fun t => at_zoom zoom t = true) rows)
  <-> stored rows zoom c r.
Proof.
  rewrite CoverageFacts.select_columns_rows_perm, list_elem_of_fmap.
  unfold stored. split.
  - intros (t & Heq & Hin). apply list_elem_of_filter in Hin as [Hz Hin].
    injection Heq as -> ->. exists t. unfold at_zoom in Hz.
    apply Z.eqb_eq in Hz. auto.
  - intros (t & Hin & Hz & Hc & Hr). exists t. split; [congruence|].
    apply list_elem_of_filter. split; [|exact Hin].
    unfold at_zoom. apply Z.eqb_eq. exact Hz.
Qed.

(** Where the loop stops on a sorted cursor: on a pair of the cursor in
    the last row of its column, reached through columns without a gap and
    followed by none in the next column. *)
Lemma adjacent_stop rest : forall p,
  StronglySorted pair_le (p :: rest) ->
  let stop := adjacent p rest in
  stop ∈ p :: rest /\
  p.1 <= stop.1 /\
  (forall q, q ∈ p :: rest -> q.1 = stop.1 -> q.2 <= stop.2) /\
  (forall c, p.1 <= c <= stop.1 -> exists q, q ∈ p :: rest /\ q.1 = c) /\
  (forall q, q ∈ p :: rest -> q.1 <> stop.1 + 1).
Proof.
  induction rest as [|q rest IH]; intros p Hs; simpl.
  - split; [left|]. split; [lia|]. split; [|split].
    + intros q Hq _. apply list_elem_of_singleton in Hq as ->. lia.
    + intros c Hc. exists p. split; [left | lia].
    + intros q Hq. apply list_elem_of_singleton in Hq as ->. lia.
  - apply StronglySorted_inv in Hs as [Hs Hall].
    rewrite List.Forall_forall in Hall.
    assert (Hpq : p.1 <= q.1).
    { pose proof (Hall q ltac:(left; reflexivity)) as H. unfold pair_le in H. lia. }
    destruct (Z.leb_spec (q.1 - p.1) 1) as [Hstep|Hstep].
    + destruct (IH q Hs) as (Hin & Hle & Hmax & Hcols & Hgap).
      set (stop := adjacent q rest) in *.
      split; [right; exact Hin|]. split; [lia|]. split; [|split].
      * intros q' Hq' Hcol. apply elem_of_cons in Hq' as [->|Hq'].
        -- apply list_elem_of_In in Hin.
           pose proof (Hall stop Hin) as H. unfold pair_le in H. lia.
        -- apply Hmax; assumption.
      * intros c Hc. destruct (decide (c = p.1)) as [->|Hne].
        -- exists p. split; [left | reflexivity].
        -- destruct (Hcols c ltac:(lia)) as (q' & Hq' & Hcq).
           exists q'. split; [right; exact Hq' | exact Hcq].
      * intros q' Hq'. apply elem_of_cons in Hq' as [->|Hq'].
        -- lia.
        -- apply Hgap. exact Hq'.
    + assert (Hfar : forall q', q' ∈ q :: rest -> p.1 + 1 < q'.1).
      { intros q' Hq'. apply elem_of_cons in Hq' as [->|Hq']; [lia|].
        apply StronglySorted_inv in Hs as [_ Hall'].
        rewrite List.Forall_forall in Hall'. apply list_elem_of_In in Hq'.
        pose proof (Hall' q' Hq') as H. unfold pair_le in H. lia. }
      split; [left|]. split; [lia|]. split; [|split].
      * intros q' Hq' Hcol. apply elem_of_cons in Hq' as [->|Hq']; [lia|].
        pose proof (Hfar q' Hq'). lia.
      * intros c Hc. exists p. split; [left | lia].
      * intros q' Hq'. apply elem_of_cons in Hq' as [->|Hq']; [lia|].
        pose proof (Hfar q' Hq'). lia.
Qed.

Section Coverage.
Variable coord : Type.
Variable unproject_pixels : Z -> Z * Z -> Z -> coord * coord.

(** [find_coverage] on a readable table, by the sorted result set. *)
Lemma find_coverage_eq S db rows zoom :
  tiles db = Some rows ->
  find_coverage coord unproject_pixels S db zoom =
    match select_columns_rows (filter (fun t => at_zoom zoom t = true) rows) with
    | [] => Raise TypeError
    | (xmin, ymin) :: rest =>
        let stop := adjacent (xmin, ymin) rest in
        Ok (tuple_add coord
              (unproject_pixels S (xmin * S, (stop.2 + 1) * S) zoom)
              (unproject_pixels S ((stop.1 + 1) * S, ymin * S) zoom))
    end.
Proof.
  intros Hdb. unfold find_coverage, _query. rewrite Hdb. simpl.
  destruct (select_columns_rows _) as [|[xmin ymin] rest]; [reflexivity|].
  simpl. replace (xmin - xmin <=? 1) with true by (symmetry; apply Z.leb_le; lia).
  destruct (adjacent (xmin, ymin) rest) as [xmax ymax]. reflexivity.
Qed.

(** X3. On a readable [tiles] table whose zoom levels are integers,
    and for a zoom SQLite can bind, [find_coverage] returns a box at
    exactly the zoom levels [zoomlevels] lists; at every other such zoom
    it raises [TypeError]. *)
Theorem find_coverage_at_zoomlevels S db rows zs zoom :
  sqlite_int zoom ->
  tiles db = Some rows ->
  zoomlevels db = Ok zs ->
  (zoom ∈ zs ->
   exists box, find_coverage coord unproject_pixels S db zoom = Ok box) /\
  (zoom ∉ zs ->
   find_coverage coord unproject_pixels S db zoom = Raise TypeError).
Proof.
  intros _ Hdb Hzs. rewrite (zoomlevels_eq _ _ Hdb) in Hzs. injection Hzs as <-.
  rewrite (find_coverage_eq _ _ _ _ Hdb).
  rewrite select_distinct_zoom_level_elem.
  destruct (select_columns_rows _) as [|[xmin ymin] rest] eqn:Hsel.
  - split; [|reflexivity]. intros (t & Hin & Hz). exfalso.
    assert (H : (tile_column t, tile_row t) ∈
                select_columns_rows (filter (fun t => at_zoom zoom t = true) rows)).
    { apply select_columns_rows_elem. exists t. auto. }
    rewrite Hsel in H. inversion H.
  - split; [eauto|]. intros Hno. exfalso. apply Hno.
    assert (H : (xmin, ymin) ∈
                select_columns_rows (filter (fun t => at_zoom zoom t = true) rows)).
    { rewrite Hsel. left. }
    apply select_columns_rows_elem in H as (t & Hin & Hz & _). eauto.
Qed.

(** The extent of the box, in stored tiles. *)
Lemma find_coverage_stop S db rows zoom :
  tiles db = Some rows ->
  (exists t, t ∈ rows /\ zoom_level t = zoom) ->
  exists xmin ymin xmax ymax,
    find_coverage coord unproject_pixels S db zoom =
      Ok (tuple_add coord
            (unproject_pixels S (xmin * S, (ymax + 1) * S) zoom)
            (unproject_pixels S ((xmax + 1) * S, ymin * S) zoom)) /\
    stored rows zoom xmin ymin /\
    stored rows zoom xmax ymax /\
    (forall c r, stored rows zoom c r ->
       xmin <= c /\ (c = xmin -> ymin <= r) /\ (c = xmax -> r <= ymax) /\
       c <> xmax + 1) /\
    (forall c, xmin <= c <= xmax -> exists r, stored rows zoom c r).
Proof.
  intros Hdb (t & Hin & Hz). rewrite (find_coverage_eq _ _ _ _ Hdb).
  pose proof (CoverageFacts.select_columns_rows_sorted
                (filter (fun t => at_zoom zoom t = true) rows)) as Hsorted.
  apply Sorted_StronglySorted in Hsorted; [|apply _].
  pose proof (select_columns_rows_elem rows zoom) as Helem.
  destruct (select_columns_rows _) as [|[xmin ymin] rest] eqn:Hsel.
  { exfalso. assert (H : stored rows zoom (tile_column t) (tile_row t)).
    { exists t. auto. }
    apply Helem in H. inversion H. }
  destruct (adjacent_stop rest (xmin, ymin) Hsorted)
    as (Hstop & Hle & Hmax & Hcols & Hgap).
  pose proof (StronglySorted_inv Hsorted) as [_ Hall].
  rewrite List.Forall_forall in Hall.
  destruct (adjacent (xmin, ymin) rest) as [xmax ymax] eqn:Hadj.
  simpl in Hle, Hmax, Hcols, Hgap.
  exists xmin, ymin, xmax, ymax. split; [reflexivity|].
  split; [apply Helem; left|]. split; [apply Helem; exact Hstop|]. split.
  - intros c r Hcr. apply Helem in Hcr.
    assert (Hfirst : pair_le (xmin, ymin) (c, r)).
    { apply elem_of_cons in Hcr as [Heq|Hcr].
      - rewrite Heq. apply pair_le_refl.
      - apply Hall. apply list_elem_of_In. exact Hcr. }
    unfold pair_le in Hfirst. simpl in Hfirst.
    split; [lia|]. split; [lia|]. split.
    + intros ->. exact (Hmax (xmax, r) Hcr eq_refl).
    + exact (Hgap (c, r) Hcr).
  - intros c Hc. destruct (Hcols c Hc) as ([c' r] & Hq & Hcq).
    simpl in Hcq. subst c'. exists r. apply Helem. exact Hq.
Qed.

(** X4. The corners of the box: [xmin] is the smallest populated
    column of the zoom and [ymin] the smallest stored row of that column;
    [ymax] is the largest stored row of column [xmax]; both corners are
    stored tiles. *)
Theorem find_coverage_corners S db rows zoom :
  tiles db = Some rows ->
  (exists t, t ∈ rows /\ zoom_level t = zoom) ->
  exists xmin ymin xmax ymax,
    find_coverage coord unproject_pixels S db zoom =
      Ok (tuple_add coord
            (unproject_pixels S (xmin * S, (ymax + 1) * S) zoom)
            (unproject_pixels S ((xmax + 1) * S, ymin * S) zoom)) /\
    stored rows zoom xmin ymin /\
    stored rows zoom xmax ymax /\
    forall c r, stored rows zoom c r ->
      xmin <= c /\ (c = xmin -> ymin <= r) /\ (c = xmax -> r <= ymax).
Proof.
  intros Hdb Hsome.
  destruct (find_coverage_stop S db rows zoom Hdb Hsome)
    as (xmin & ymin & xmax & ymax & Hrun & Hmin & Hmax & Hall & _).
  exists xmin, ymin, xmax, ymax. repeat (split; [assumption|]).
  intros c r Hcr. destruct (Hall c r Hcr) as (H1 & H2 & H3 & _). auto.
Qed.

(** X5. The columns of the box: every column from [xmin] to [xmax]
    holds a stored tile of the zoom and column [xmax + 1] holds none, so
    the box ends at the first empty column after the smallest populated
    one. *)
Theorem find_coverage_columns S db rows zoom :
  tiles db = Some rows ->
  (exists t, t ∈ rows /\ zoom_level t = zoom) ->
  exists xmin ymin xmax ymax,
    find_coverage coord unproject_pixels S db zoom =
      Ok (tuple_add coord
            (unproject_pixels S (xmin * S, (ymax + 1) * S) zoom)
            (unproject_pixels S ((xmax + 1) * S, ymin * S) zoom)) /\
    xmin <= xmax /\
    (forall c, xmin <= c <= xmax -> exists r, stored rows zoom c r) /\
    (forall r, ~ stored rows zoom (xmax + 1) r).
Proof.
  intros Hdb Hsome.
  destruct (find_coverage_stop S db rows zoom Hdb Hsome)
    as (xmin & ymin & xmax & ymax & Hrun & _ & Hmax & Hall & Hcols).
  exists xmin, ymin, xmax, ymax. split; [exact Hrun|]. split; [|split].
  - destruct (Hall xmax ymax Hmax) as (H & _). exact H.
  - exact Hcols.
  - intros r Hr. destruct (Hall _ r Hr) as (_ & _ & _ & H). congruence.
Qed.
End Coverage.

Lemma tiles_zooms_at_3 :
  exists t, t ∈ Samples.tiles_zooms /\ zoom_level t = 3.
Proof.
  exists (TilesRow 3 5 0 Samples.png1). split; [left | reflexivity].
Defined.

Lemma find_coverage_at_zoomlevels_witness :
  (exists box,
     find_coverage Z Samples.unproject_pixels 256 Samples.db_zooms 3 = Ok box) /\
  find_coverage Z Samples.unproject_pixels 256 Samples.db_zooms 2
  = Raise TypeError.
Proof.
  split.
  - apply (find_coverage_at_zoomlevels Z Samples.unproject_pixels 256
             Samples.db_zooms Samples.tiles_zooms [1; 3] 3
             ltac:(unfold sqlite_int; lia) eq_refl eq_refl).
    right. left.
  - apply (find_coverage_at_zoomlevels Z Samples.unproject_pixels 256
             Samples.db_zooms Samples.tiles_zooms [1; 3] 2
             ltac:(unfold sqlite_int; lia) eq_refl eq_refl).
    intros Hin.
    repeat (apply elem_of_cons in Hin as [Heq|Hin]; [discriminate Heq|]).
    inversion Hin.
Defined.

Lemma find_coverage_corners_witness :
  exists xmin ymin xmax ymax,
    find_coverage Z Samples.unproject_pixels 256 Samples.db_zooms 3 =
      Ok (xmin * 256, (ymax + 1) * 256, (xmax + 1) * 256, ymin * 256) /\
    stored Samples.tiles_zooms 3 xmin ymin /\
    stored Samples.tiles_zooms 3 xmax ymax.
Proof.
  destruct (find_coverage_corners Z Samples.unproject_pixels 256
              Samples.db_zooms Samples.tiles_zooms 3 eq_refl tiles_zooms_at_3)
    as (xmin & ymin & xmax & ymax & Hrun & Hmin & Hmax & _).
  exists xmin, ymin, xmax, ymax. split; [exact Hrun|]. split; assumption.
Defined.

Lemma find_coverage_columns_witness :
  exists xmin ymin xmax ymax,
    find_coverage Z Samples.unproject_pixels 256 Samples.db_zooms 3 =
      Ok (xmin * 256, (ymax + 1) * 256, (xmax + 1) * 256, ymin * 256) /\
    xmin <= xmax /\
    forall r, ~ stored Samples.tiles_zooms 3 (xmax + 1) r.
Proof.
  destruct (find_coverage_columns Z Samples.unproject_pixels 256
              Samples.db_zooms Samples.tiles_zooms 3 eq_refl tiles_zooms_at_3)
    as (xmin & ymin & xmax & ymax & Hrun & Hle & _ & Hgap).
  exists xmin, ymin, xmax, ymax. split; [exact Hrun|]. split; assumption.
Defined.

(** Zoom 3 of the sample: the columns 2 and 3 form the box, column 4 is
    empty and column 5 is left out; the last pair of the run lies above
    the first, so [ymax < ymin]. *)
Example find_coverage_zoom3 :
  find_coverage Z Samples.unproject_pixels 256 Samples.db_zooms 3
  = Ok (2 * 256, (1 + 1) * 256, (3 + 1) * 256, 4 * 256).
Proof. vm_compute. reflexivity. Qed.

End ArchiveFacts.

(** ** Grids that cannot be assembled *)

Module GridErrorFacts.
Import MBTilesReader.

Section Grid.
Variable decompress : bytes -> result string.
Variable loads : string -> result json.
Variable dumps : json -> string.

(** The loop stops at the first fragment that does not parse. *)
Lemma join_data_raise pre r post e :
  Forall (parses loads) pre ->
  loads (key_json r) = Raise e ->
  forall data, join_data loads (pre ++ r :: post) data = Raise e.
Proof.
  intros Hpre Hr. induction Hpre as [|r0 pre [j Hj] _ IH]; intros data; simpl.
  - rewrite Hr. reflexivity.
  - rewrite Hj. simpl. apply IH.
Qed.

(** X6. One fragment that [json.loads] rejects makes [grid] fail with
    the error of the parser, although the header record is found and
    parses and whatever the other fragments at the coordinate are; the
    first such fragment in scan order decides. *)
Theorem grid_bad_fragment db grows drows z x y callback t text header
    pre r post e :
  0 <= z ->
  grids db = Some grows ->
  List.find (at_grid z x (y_mercator z y)) grows = Some t ->
  decompress (grid_blob t) = Ok text ->
  loads text = Ok (JObj header) ->
  grid_data db = Some drows ->
  filter (fun r => at_grid_data z x (y_mercator z y) r = true) drows
    = pre ++ r :: post ->
  Forall (parses loads) pre ->
  loads (key_json r) = Raise e ->
  grid decompress loads dumps db z x y callback = Raise e.
Proof.
  intros _ Hgrids Hfind Htext Hhdr Hdata Hhere Hpre Hr.
  unfold grid. rewrite (GridFacts.grid_json_eq _ _ _ _ _ _ _ Hgrids), Hfind.
  simpl. rewrite Htext. simpl. rewrite Hhdr. simpl.
  unfold _query. rewrite Hdata. simpl. rewrite Hhere.
  rewrite (join_data_raise _ _ _ _ Hpre Hr). reflexivity.
Qed.

(** X7. A header record that parses to anything but a JSON object (a
    list, a string, a number, [null]) makes [grid] raise [TypeError] at
    [grid_json['data'] = {}], once the [grid_data] table has been read. *)
Theorem grid_header_not_object db grows drows z x y callback t text header :
  0 <= z ->
  grids db = Some grows ->
  List.find (at_grid z x (y_mercator z y)) grows = Some t ->
  decompress (grid_blob t) = Ok text ->
  loads text = Ok header ->
  (forall members, header <> JObj members) ->
  grid_data db = Some drows ->
  grid decompress loads dumps db z x y callback = Raise TypeError.
Proof.
  intros _ Hgrids Hfind Htext Hhdr Hnot Hdata.
  unfold grid. rewrite (GridFacts.grid_json_eq _ _ _ _ _ _ _ Hgrids), Hfind.
  simpl. rewrite Htext. simpl. rewrite Hhdr. simpl.
  unfold _query. rewrite Hdata. simpl.
  destruct header; try reflexivity. exfalso. eapply Hnot. reflexivity.
Qed.
End Grid.

Lemma grid_bad_fragment_witness :
  grid Samples.decompress Samples.loads Samples.dumps Samples.db_zooms
       0 0 0 None = Raise ValueError.
Proof.
  apply (grid_bad_fragment Samples.decompress Samples.loads Samples.dumps
           Samples.db_zooms _ _ 0 0 0 None (GridsRow 0 0 0 Samples.blob) "{}" ∅
           [GridDataRow 0 0 0 "a" "1"] (GridDataRow 0 0 0 "b" "{")
           [GridDataRow 0 0 0 "c" "2"] ValueError
           ltac:(lia) eq_refl eq_refl eq_refl eq_refl eq_refl eq_refl).
  - repeat constructor. exists (JNum 1). reflexivity.
  - reflexivity.
Defined.

Lemma grid_header_not_object_witness :
  grid Samples.decompress Samples.loads Samples.dumps Samples.db_list
       0 0 0 None = Raise TypeError.
Proof.
  apply (grid_header_not_object Samples.decompress Samples.loads
           Samples.dumps Samples.db_list [GridsRow 0 0 0 Samples.blob_list]
           Samples.two_key_rows 0 0 0 None
           (GridsRow 0 0 0 Samples.blob_list) "[]" (JArr [])
           ltac:(lia) eq_refl eq_refl eq_refl eq_refl).
  - intros members. discriminate.
  - reflexivity.
Defined.

End GridErrorFacts.

(** ** Templates, subdomains and the retry loop *)

Module FetchFacts.
Import TileDownloader.

Lemma subdomain_eq subdomains x y :
  subdomains <> [] ->
  subdomain subdomains x y =
    match subdomains !! Z.to_nat ((x + y) mod Z.of_nat (length subdomains)) with
    | Some s => Ok s
    | None => Raise IndexError
    end.
Proof.
  intros Hne. unfold subdomain.
  destruct (Z.eqb_spec (Z.of_nat (length subdomains)) 0) as [E|_]; [|reflexivity].
  destruct subdomains; [contradiction | simpl in E; lia].
Qed.

(** X8. With a non-empty list the subdomain is an item of the list,
    chosen by [(x + y) mod len] alone: two tiles whose coordinate sums
    agree modulo the length of the list are fetched from the same
    subdomain (also for negative sums). *)
Theorem subdomain_choice subdomains x y :
  subdomains <> [] ->
  exists s,
    subdomain subdomains x y = Ok s /\
    s ∈ subdomains /\
    forall x' y',
      (x' + y') mod Z.of_nat (length subdomains)
      = (x + y) mod Z.of_nat (length subdomains) ->
      subdomain subdomains x' y' = Ok s.
Proof.
  intros Hne. destruct (DownloadFacts.subdomain_nonempty subdomains x y Hne)
    as [s Hs].
  exists s. split; [exact Hs|].
  rewrite (subdomain_eq _ _ _ Hne) in Hs.
  destruct (subdomains !! _) as [s'|] eqn:Hget; [|discriminate].
  injection Hs as ->. split.
  - apply list_elem_of_lookup. eauto.
  - intros x' y' Hmod. rewrite (subdomain_eq _ _ _ Hne), Hmod, Hget. reflexivity.
Qed.

Lemma subdomain_choice_witness :
  exists s,
    subdomain ["a"; "b"; "c"] 3 1 = Ok s /\
    s ∈ ["a"; "b"; "c"] /\
    subdomain ["a"; "b"; "c"] (-4) 2 = Ok s.
Proof.
  destruct (subdomain_choice ["a"; "b"; "c"] 3 1 ltac:(discriminate))
    as (s & Hs & Hin & Hsame).
  exists s. split; [exact Hs|]. split; [exact Hin|].
  apply Hsame. reflexivity.
Defined.

Lemma local_name_known self_str z x y output size s name :
  name ∈ local_names ->
  is_positional name = false /\
  is_Some (locals self_str z x y output size s !! name).
Proof.
  unfold local_names. intros Hin.
  repeat (apply elem_of_cons in Hin as [->|Hin];
          [split; [reflexivity | eexists; reflexivity]|]).
  inversion Hin.
Qed.

(** Fields that can be replaced do not stop [format]. *)
Lemma format_prefix pre rest kwargs e :
  (forall name, Field name ∈ pre ->
     is_positional name = false /\ is_Some (kwargs !! name)) ->
  format rest kwargs = Raise e ->
  format (pre ++ rest) kwargs = Raise e.
Proof.
  intros Hpre Hrest. induction pre as [|p pre IH]; [exact Hrest|].
  assert (IH' : format (pre ++ rest) kwargs = Raise e).
  { apply IH. intros name Hin. apply Hpre. right. exact Hin. }
  destruct p as [text|name]; simpl.
  - rewrite IH'. reflexivity.
  - destruct (Hpre name ltac:(left)) as [Hpos [v Hv]].
    rewrite Hpos, Hv, IH'. reflexivity.
Qed.

Lemma format_known template kwargs :
  (forall name, Field name ∈ template ->
     is_positional name = false /\ is_Some (kwargs !! name)) ->
  exists url, format template kwargs = Ok url.
Proof.
  induction template as [|p template IH]; intros Hall; [eexists; reflexivity|].
  destruct IH as [tail Htail].
  { intros name Hin. apply Hall. right. exact Hin. }
  destruct p as [text|name]; simpl.
  - rewrite Htail. eexists. reflexivity.
  - destruct (Hall name ltac:(left)) as [Hpos [v Hv]].
    rewrite Hpos, Hv, Htail. eexists. reflexivity.
Qed.

Lemma format_raises template kwargs e :
  format template kwargs = Raise e ->
  e = IndexError \/ exists k, e = KeyError k.
Proof.
  induction template as [|p template IH]; simpl; [discriminate|].
  destruct p as [text|name].
  - destruct (format template kwargs); simpl; [discriminate|].
    intros [= <-]. apply IH. reflexivity.
  - destruct (is_positional name); [intros [= <-]; left; reflexivity|].
    destruct (kwargs !! name); [|intros [= <-]; right; eauto].
    destruct (format template kwargs); simpl; [discriminate|].
    intros [= <-]. apply IH. reflexivity.
Qed.

Section Tile.
Variable DOWNLOAD_RETRIES : Z.
Variable self_str : string.
Variable backend : string -> nat -> retrieved.

(** X9. A downloader without subdomains cannot fetch anything: the
    choice of the subdomain divides by the length of the list, so [tile]
    raises [ZeroDivisionError] before the template is read and before any
    request, whatever the template and the coordinate. *)
Theorem tile_without_subdomains self z x y output w :
  tiles_subdomains self = [] ->
  tile DOWNLOAD_RETRIES self_str backend self z x y output w
  = (Raise ZeroDivisionError, w).
Proof.
  intros Hnone. unfold tile, bind, lift, subdomain. rewrite Hnone. reflexivity.
Qed.

(** X10. A positional placeholder with an index of one to nine
    digits ([{0}], [{12}]) that [format] reaches before any unknown
    keyword makes [tile] raise [IndexError], which the handler for
    [KeyError] does not turn into [DownloadError]; no request is made. *)
Theorem positional_placeholder self z x y output w pre name post :
  tiles_subdomains self <> [] ->
  tiles_url self = pre ++ Field name :: post ->
  is_positional name = true ->
  (1 <= String.length name <= 9)%nat ->
  (forall known, Field known ∈ pre -> known ∈ local_names) ->
  tile DOWNLOAD_RETRIES self_str backend self z x y output w
  = (Raise IndexError, w).
Proof.
  intros Hne Hurl Hpos _ Hpre.
  destruct (DownloadFacts.subdomain_nonempty _ x y Hne) as [s Hs].
  unfold tile, bind, lift. rewrite Hs, Hurl. simpl.
  rewrite (format_prefix pre (Field name :: post) _ IndexError).
  - reflexivity.
  - intros known Hin. apply local_name_known. apply Hpre. exact Hin.
  - simpl. rewrite Hpos. reflexivity.
Qed.

(** X11. A template whose placeholders are all among the names
    [locals()] binds always formats: with at least one subdomain and a
    retry budget of at least 1, a backend that answers the first request
    makes [tile] return after that one request with the body in the
    output file. *)
Theorem known_keywords_fetch self z x y output w body :
  tiles_subdomains self <> [] ->
  (forall name, Field name ∈ tiles_url self -> name ∈ local_names) ->
  0 < DOWNLOAD_RETRIES ->
  (forall url, backend url (requests w) = Retrieved body) ->
  tile DOWNLOAD_RETRIES self_str backend self z x y output w
  = (Ok tt, World (Some body) (S (requests w))).
Proof.
  intros Hne Hknown HR Hanswer.
  destruct (DownloadFacts.subdomain_nonempty _ x y Hne) as [s Hs].
  destruct (format_known (tiles_url self)
              (locals self_str z x y output (tilesize self) s)) as [url Hurl].
  { intros name Hin. apply local_name_known. apply Hknown. exact Hin. }
  rewrite (DownloadFacts.tile_attempts _ _ _ _ _ _ _ _ _ _ _ Hs Hurl).
  destruct (Z.to_nat DOWNLOAD_RETRIES) as [|r] eqn:Hr; [lia|].
  rewrite DownloadFacts.attempts_S, Hanswer. reflexivity.
Qed.

(** X12. Only [IOError] is retried: when the first transfer raises
    any other exception, [tile] lets it escape after that single request,
    however large the retry budget. *)
Theorem other_error_not_retried self z x y output s url w e written :
  subdomain (tiles_subdomains self) x y = Ok s ->
  format (tiles_url self) (locals self_str z x y output (tilesize self) s)
    = Ok url ->
  0 < DOWNLOAD_RETRIES ->
  backend url (requests w) = Failed e written ->
  e <> IOError ->
  tile DOWNLOAD_RETRIES self_str backend self z x y output w
  = (Raise e, World (from_option Some (file w) written) (S (requests w))).
Proof.
  intros Hs Hurl HR Hfail He.
  rewrite (DownloadFacts.tile_attempts _ _ _ _ _ _ _ _ _ _ _ Hs Hurl).
  destruct (Z.to_nat DOWNLOAD_RETRIES) as [|r] eqn:Hr; [lia|].
  rewrite DownloadFacts.attempts_S, Hfail. cbv zeta.
  destruct e; try reflexivity. contradiction.
Qed.

(** X13. With a retry budget of zero or less the loop body never
    runs: [tile] raises the bare [DownloadError] without a single
    request, also when the backend would have answered. *)
Theorem no_budget_no_request self z x y output s url w :
  subdomain (tiles_subdomains self) x y = Ok s ->
  format (tiles_url self) (locals self_str z x y output (tilesize self) s)
    = Ok url ->
  DOWNLOAD_RETRIES <= 0 ->
  tile DOWNLOAD_RETRIES self_str backend self z x y output w
  = (Raise (DownloadError None), w).
Proof.
  intros Hs Hurl HR.
  rewrite (DownloadFacts.tile_attempts _ _ _ _ _ _ _ _ _ _ _ Hs Hurl).
  replace (Z.to_nat DOWNLOAD_RETRIES) with 0%nat by lia. reflexivity.
Qed.

Lemma attempts_not_IOError url r : forall w w' e,
  attempts backend r url w = (Raise e, w') -> e <> IOError.
Proof.
  induction r as [|r IH]; intros w w' e Hrun.
  - simpl in Hrun. injection Hrun as <- _. discriminate.
  - rewrite DownloadFacts.attempts_S in Hrun.
    destruct (backend url (requests w)) as [body|e0 written];
      [discriminate|]. cbv zeta in Hrun.
    destruct (is_IOError e0) eqn:He0.
    + exact (IH _ _ _ Hrun).
    + injection Hrun as <- _. intros ->. discriminate.
Qed.

(** X14. [tile] never raises [IOError]: the loop catches every
    [IOError] of a transfer and, once the budget is used up, raises
    [DownloadError] in its place. *)
Theorem tile_never_IOError self z x y output w e w' :
  tile DOWNLOAD_RETRIES self_str backend self z x y output w = (Raise e, w') ->
  e <> IOError.
Proof.
  unfold tile, bind, lift. simpl.
  destruct (subdomain (tiles_subdomains self) x y) as [s|e0] eqn:Hs.
  2:{ intros [= <- _]. unfold subdomain in Hs.
      destruct (_ =? 0); [injection Hs as <-; discriminate|].
      destruct (_ !! _); [discriminate|]. injection Hs as <-. discriminate. }
  destruct (format _ _) as [url|e0] eqn:Hfmt.
  - simpl. apply attempts_not_IOError.
  - destruct (format_raises _ _ _ Hfmt) as [->|[k ->]];
      intros [= <- _]; discriminate.
Qed.
End Tile.

Lemma tile_without_subdomains_witness :
  tile 3 Samples.self_str (Samples.flaky 0)
       (TileDownloader.New Samples.template_zxy [] 256) 2 3 1 "out.png"
       Samples.w0
  = (Raise ZeroDivisionError, Samples.w0).
Proof.
  apply (tile_without_subdomains 3 Samples.self_str (Samples.flaky 0)
           (TileDownloader.New Samples.template_zxy [] 256)).
  reflexivity.
Defined.

Lemma positional_placeholder_witness :
  tile 3 Samples.self_str (Samples.flaky 0)
       (Samples.downloader Samples.template_positional) 2 3 1 "out.png"
       Samples.w0
  = (Raise IndexError, Samples.w0).
Proof.
  apply (positional_placeholder 3 Samples.self_str (Samples.flaky 0)
           (Samples.downloader Samples.template_positional) 2 3 1 "out.png"
           Samples.w0
           [Text "http://"; Field "s"; Text ".tile.test/"] "0"
           [Text "/"; Field "foo"]).
  - discriminate.
  - reflexivity.
  - reflexivity.
  - simpl. lia.
  - intros known Hin.
    repeat (apply elem_of_cons in Hin as [Heq|Hin];
            [first [discriminate Heq
                   | injection Heq as ->; unfold local_names;
                     repeat constructor]|]).
    inversion Hin.
Defined.

Lemma known_keywords_fetch_witness :
  tile 3 Samples.self_str (Samples.flaky 0)
       (Samples.downloader Samples.template_output) 2 3 1 "out.png"
       Samples.w0
  = (Ok tt, World (Some Samples.png1) 1).
Proof.
  apply (known_keywords_fetch 3 Samples.self_str (Samples.flaky 0)
           (Samples.downloader Samples.template_output) 2 3 1 "out.png"
           Samples.w0 Samples.png1).
  - discriminate.
  - intros name Hin.
    repeat (apply elem_of_cons in Hin as [Heq|Hin];
            [first [discriminate Heq
                   | injection Heq as ->; unfold local_names;
                     repeat constructor]|]).
    inversion Hin.
  - lia.
  - intros url. reflexivity.
Defined.

Lemma other_error_not_retried_witness :
  tile 3 Samples.self_str Samples.broken
       (Samples.downloader Samples.template_zxy) 2 3 1 "out.png" Samples.w0
  = (Raise ValueError, World None 1).
Proof.
  apply (other_error_not_retried 3 Samples.self_str Samples.broken
           (Samples.downloader Samples.template_zxy) 2 3 1 "out.png" "a"
           "http://a.tile.test/2/3/1.png" Samples.w0 ValueError None
           eq_refl eq_refl ltac:(lia) eq_refl).
  discriminate.
Defined.

Lemma no_budget_no_request_witness :
  tile 0 Samples.self_str (Samples.flaky 0)
       (Samples.downloader Samples.template_zxy) 2 3 1 "out.png" Samples.w0
  = (Raise (DownloadError None), Samples.w0).
Proof.
  apply (no_budget_no_request 0 Samples.self_str (Samples.flaky 0)
           (Samples.downloader Samples.template_zxy) 2 3 1 "out.png" "a"
           "http://a.tile.test/2/3/1.png" Samples.w0 eq_refl eq_refl).
  lia.
Defined.

Lemma tile_never_IOError_witness :
  tile 2 Samples.self_str Samples.truncating
       (Samples.downloader Samples.template_zxy) 2 3 1 "out.png" Samples.w0
  = (Raise (DownloadError None), World (Some [Byte.x89]) 2) /\
  DownloadError None <> IOError.
Proof.
  split; [reflexivity|].
  apply (tile_never_IOError 2 Samples.self_str Samples.truncating
           (Samples.downloader Samples.template_zxy) 2 3 1 "out.png"
           Samples.w0 (DownloadError None) (World (Some [Byte.x89]) 2)).
  reflexivity.
Defined.

End FetchFacts.

(** ** Errors of a WMS request and the check of the content type *)

Module RequestFacts.
Import WMSReader.

Lemma handled_false e :
  handled e = false -> e <> IOError /\ e <> AssertionError.
Proof. destruct e; simpl; intros H; try discriminate H; split; discriminate. Qed.

Section Tile.
Variable bbox_string : Z -> Z -> Z -> Z -> string.
Variable urlencode : gmap string pyval -> string.
Variable backend : string -> nat -> response.

(** X16. Neither [IOError] nor [AssertionError] escapes from [tile]:
    a refused request, a failed read of the body and a failed check of
    the content type all surface as [ExtractionError]. *)
Theorem tile_wraps_errors self z x y w e w' :
  tile bbox_string urlencode backend self z x y w = (Raise e, w') ->
  e <> IOError /\ e <> AssertionError.
Proof.
  rewrite WMSFacts.tile_run. cbv zeta.
  destruct (backend _ (requests w)) as [e0|header body].
  - destruct (handled e0) eqn:He0; intros [= <- _].
    + split; discriminate.
    + apply handled_false. exact He0.
  - destruct (wmsParams self !! "format") as [fmt|];
      [|intros [= <- _]; split; discriminate].
    destruct (header_eq header fmt); [|intros [= <- _]; split; discriminate].
    destruct body as [b|e0]; [discriminate|].
    destruct (handled e0) eqn:He0; intros [= <- _].
    + split; discriminate.
    + apply handled_false. exact He0.
Qed.

Section Init.
Variable DEFAULT_TILE_SIZE : Z.
Variable version : Type.
Variable parse_version : pyval -> result version.
Variable version_ge : version -> version -> bool.
Variable NAME : string.

(** The format a constructed requester asks for. *)
Lemma constructed_format address layers size kwargs self :
  __init__ DEFAULT_TILE_SIZE version parse_version version_ge NAME
           address layers size kwargs = Ok self ->
  wmsParams self !! "format"
  = Some (default (VStr "image/jpeg") (kwargs !! "format")).
Proof.
  unfold __init__, getitem. rewrite WMSFacts.version_in_force. simpl.
  destruct (parse_version (effective_version kwargs)) as [v|]; simpl;
    [|discriminate].
  destruct (parse_version (VStr "1.3")) as [v13|]; simpl; [|discriminate].
  intros [= <-]. simpl.
  rewrite lookup_insert_ne by (destruct (version_ge v v13); discriminate).
  rewrite lookup_union. destruct (kwargs !! "format"); reflexivity.
Qed.

(** X17. A requester built by the constructor always carries a
    [format] parameter, the override or else [image/jpeg]: [tile] stores
    the body of a response whose content type equals it, and raises
    [ExtractionError] with the output file untouched for any other
    response, a missing [Content-Type] header included. *)
Theorem constructed_requester_checks_type address layers size kwargs self
    z x y w :
  __init__ DEFAULT_TILE_SIZE version parse_version version_ge NAME
           address layers size kwargs = Ok self ->
  let fmt := default (VStr "image/jpeg") (kwargs !! "format") in
  let request := (url self +:+ "?" +:+ urlencode (wmsParams self))
                 +:+ "&bbox=" +:+ bbox_string (tilesize self) z x y in
  (forall header b,
     backend request (requests w) = Opened header (Ok b) ->
     header_eq header fmt = true ->
     tile bbox_string urlencode backend self z x y w
     = (Ok tt, World (Some b) (S (requests w)))) /\
  (forall header body,
     backend request (requests w) = Opened header body ->
     header_eq header fmt = false ->
     tile bbox_string urlencode backend self z x y w
     = (Raise ExtractionError, World (file w) (S (requests w)))).
Proof.
  intros Hinit fmt request.
  pose proof (constructed_format _ _ _ _ _ Hinit) as Hfmt. fold fmt in Hfmt.
  split; intros header body Hanswer Hheader;
    rewrite WMSFacts.tile_run; cbv zeta; fold request;
    rewrite Hanswer, Hfmt, Hheader; reflexivity.
Qed.
End Init.
End Tile.

Lemma tile_wraps_errors_witness :
  tile Samples.bbox_string Samples.urlencode Samples.xml_backend Samples.wms
       2 3 1 Samples.w0 = (Raise ExtractionError, World None 1) /\
  ExtractionError <> IOError /\ ExtractionError <> AssertionError.
Proof.
  split; [reflexivity|].
  apply (tile_wraps_errors Samples.bbox_string Samples.urlencode
           Samples.xml_backend Samples.wms 2 3 1 Samples.w0 ExtractionError
           (World None 1)).
  reflexivity.
Defined.

Lemma constructed_requester_checks_type_witness :
  exists self,
    __init__ 256 Z Samples.parse_version Samples.version_ge Samples.NAME
             "http://wms.test/" ["osm"] None ∅ = Ok self /\
    tile Samples.bbox_string Samples.urlencode Samples.jpeg_backend self
         2 3 1 Samples.w0 = (Ok tt, World (Some Samples.png1) 1) /\
    tile Samples.bbox_string Samples.urlencode Samples.xml_backend self
         2 3 1 Samples.w0 = (Raise ExtractionError, World None 1).
Proof.
  destruct (__init__ 256 Z Samples.parse_version Samples.version_ge
              Samples.NAME "http://wms.test/" ["osm"] None ∅)
    as [self|e] eqn:Hinit; [|discriminate Hinit].
  exists self. split; [reflexivity|]. split.
  - destruct (constructed_requester_checks_type Samples.bbox_string
                Samples.urlencode Samples.jpeg_backend 256 Z
                Samples.parse_version Samples.version_ge Samples.NAME
                "http://wms.test/" ["osm"] None ∅ self 2 3 1 Samples.w0 Hinit)
      as [Hsame _].
    exact (Hsame (Some "image/jpeg") Samples.png1 eq_refl eq_refl).
  - destruct (constructed_requester_checks_type Samples.bbox_string
                Samples.urlencode Samples.xml_backend 256 Z
                Samples.parse_version Samples.version_ge Samples.NAME
                "http://wms.test/" ["osm"] None ∅ self 2 3 1 Samples.w0 Hinit)
      as [_ Hother].
    exact (Hother (Some "application/vnd.ogc.se_xml") (Ok Samples.png2)
             eq_refl eq_refl).
Defined.

End RequestFacts.
